(** * Shallow embedding of check_ollama_config.py and test_embedder.py

    Both scripts are sequential: they read a configuration (test_embedder.py
    only), issue blocking HTTP requests and print lines.  They are modelled in
    a state-and-exception monad whose state holds
    - the scripted outcomes of the HTTP requests, consumed in order,
    - the requests the program has issued so far,
    - the lines it has printed so far.
    Python exceptions are values of [exn]; [try_] is a [try/except] block.
    JSON values are [json]; a Python dict decoded from JSON is an association
    list with distinct keys, in insertion order.  Strings are ASCII strings. *)

From Stdlib Require Import String Ascii List ZArith QArith Bool Lia.
Import ListNotations.
Open Scope string_scope.
Open Scope list_scope.
Set Warnings "-register-all".

(** ** JSON values as Python's [json] module decodes them *)

Inductive json : Type :=
| JNull
| JBool (b : bool)
| JInt (z : Z)
| JFloat (q : Q)
| JStr (s : string)
| JArr (xs : list json)
| JObj (kvs : list (string * json)).

(** ** Exceptions *)

(** Failures of the transport layer, before any HTTP response exists.
    [NReadError] is a connection dropped while the response is read;
    [NOther] is any other library error (too many redirects, broken
    chunked encoding, protocol violations). *)
Inductive net_err : Type :=
| NConnect
| NConnectTimeout
| NReadTimeout
| NReadError
| NOther.

Inductive exn : Type :=
| XNet (e : net_err)          (* raised by requests.get/post, httpx.get/post *)
| XHTTPStatus (code : Z)      (* httpx.HTTPStatusError, from raise_for_status *)
| XJSONDecode                 (* json.JSONDecodeError *)
| XUnicodeDecode              (* UnicodeDecodeError while reading a file *)
| XFileNotFound               (* FileNotFoundError *)
| XOSError                    (* any other OSError of open() *)
| XAttribute                  (* AttributeError *)
| XKey                        (* KeyError *)
| XType                       (* TypeError *)
| XValue                      (* ValueError *)
| XSystemExit (code : Z).     (* SystemExit, raised by sys.exit *)

(** [except Exception]: everything but [SystemExit] (a BaseException). *)
Definition is_Exception (e : exn) : bool :=
  match e with XSystemExit _ => false | _ => true end.

(** [except requests.exceptions.ConnectionError]; requests wraps a dropped
    connection and a connect timeout into it (ConnectTimeout inherits from
    both ConnectionError and Timeout). *)
Definition requests_ConnectionError (e : exn) : bool :=
  match e with XNet (NConnect | NConnectTimeout | NReadError) => true | _ => false end.

(** [except requests.exceptions.Timeout]. *)
Definition requests_Timeout (e : exn) : bool :=
  match e with XNet (NConnectTimeout | NReadTimeout) => true | _ => false end.

(** [except httpx.ConnectError]. *)
Definition httpx_ConnectError (e : exn) : bool :=
  match e with XNet NConnect => true | _ => false end.

(** [except httpx.TimeoutException]. *)
Definition httpx_TimeoutException (e : exn) : bool :=
  match e with XNet (NConnectTimeout | NReadTimeout) => true | _ => false end.

(** ** Python builtins on strings and JSON values *)

Fixpoint dict_get (kvs : list (string * json)) (k : string) : option json :=
  match kvs with
  | [] => None
  | (k', v) :: r => if String.eqb k k' then Some v else dict_get r k
  end.

(** [o.get(k, d)]: only dicts have [.get]. *)
Definition py_get (o : json) (k : string) (d : json) : exn + json :=
  match o with
  | JObj kvs => inr (match dict_get kvs k with Some v => v | None => d end)
  | _ => inl XAttribute
  end.

(** [o.items()] *)
Definition py_items (o : json) : exn + list (string * json) :=
  match o with JObj kvs => inr kvs | _ => inl XAttribute end.

(** [list(o.keys())] *)
Definition py_keys (o : json) : exn + list string :=
  match o with JObj kvs => inr (map fst kvs) | _ => inl XAttribute end.

(** [bool(v)] *)
Definition py_truthy (v : json) : bool :=
  match v with
  | JNull => false
  | JBool b => b
  | JInt z => negb (Z.eqb z 0)
  | JFloat q => negb (Qeq_bool q 0)
  | JStr s => negb (String.eqb s "")
  | JArr xs => match xs with [] => false | _ => true end
  | JObj kvs => match kvs with [] => false | _ => true end
  end.

(** The items [for x in v] visits: list elements, dict keys, characters. *)
Definition py_iter (v : json) : exn + list json :=
  match v with
  | JArr xs => inr xs
  | JObj kvs => inr (map (fun kv => JStr (fst kv)) kvs)
  | JStr s => inr (map (fun c => JStr (String c EmptyString)) (list_ascii_of_string s))
  | _ => inl XType
  end.

(** [isinstance(v, (int, float))]; [bool] is a subclass of [int]. *)
Definition is_numeric (v : json) : bool :=
  match v with JBool _ | JInt _ | JFloat _ => true | _ => false end.

(** [needle in s] for strings *)
Fixpoint contains (needle s : string) : bool :=
  String.prefix needle s ||
  match s with EmptyString => false | String _ s' => contains needle s' end.

(** [needle in v] for a string [needle]: substring test on a string, element
    test on a list, key test on a dict, TypeError on the rest. *)
Definition py_in (needle : string) (v : json) : exn + bool :=
  match v with
  | JStr s => inr (contains needle s)
  | JArr xs => inr (existsb (fun x => match x with JStr s => String.eqb s needle | _ => false end) xs)
  | JObj kvs => inr (existsb (fun kv => String.eqb (fst kv) needle) kvs)
  | _ => inl XType
  end.

(** [s.endswith(suf)] *)
Definition ends_with (suf s : string) : bool :=
  (String.length suf <=? String.length s)%nat &&
  String.eqb (substring (String.length s - String.length suf) (String.length suf) s) suf.

Definition ascii_lower (c : ascii) : ascii :=
  let n := nat_of_ascii c in
  if ((65 <=? n) && (n <=? 90))%nat then ascii_of_nat (n + 32) else c.

(** [s.lower()] *)
Definition py_lower (s : string) : string :=
  string_of_list_ascii (map ascii_lower (list_ascii_of_string s)).

Fixpoint drop_while {A} (p : A -> bool) (l : list A) : list A :=
  match l with [] => [] | x :: r => if p x then drop_while p r else l end.

(** [s.rstrip("/")] *)
Definition rstrip_slash (s : string) : string :=
  string_of_list_ascii
    (rev (drop_while (fun c => Ascii.eqb c "/"%char) (rev (list_ascii_of_string s)))).

(** [str.isspace] on ASCII: tab, line feed, vertical tab, form feed,
    carriage return, the separators 0x1c-0x1f and the space. *)
Definition is_space (c : ascii) : bool :=
  let n := nat_of_ascii c in
  ((9 <=? n) && (n <=? 13))%nat || ((28 <=? n) && (n <=? 32))%nat.

(** [v.strip()]: only strings have [.strip]. *)
Definition py_strip (v : json) : exn + string :=
  match v with
  | JStr s =>
      let cs := drop_while is_space (list_ascii_of_string s) in
      inr (string_of_list_ascii (rev (drop_while is_space (rev cs))))
  | _ => inl XAttribute
  end.

(** [format(v, ",")]: numbers only; a string gives ValueError. *)
Definition format_thousands (v : json) : exn + unit :=
  match v with
  | JBool _ | JInt _ | JFloat _ => inr tt
  | JStr _ => inl XValue
  | _ => inl XType
  end.

(** [any(p(x) for x in xs)], evaluated left to right, stopping at the first
    true value or the first exception. *)
Fixpoint py_any {A} (p : A -> exn + bool) (xs : list A) : exn + bool :=
  match xs with
  | [] => inr false
  | x :: r => match p x with
              | inl e => inl e
              | inr true => inr true
              | inr false => py_any p r
              end
  end.

(** [[f(x) for x in xs]] *)
Fixpoint map_exn {A B} (f : A -> exn + B) (xs : list A) : exn + list B :=
  match xs with
  | [] => inr []
  | x :: r => match f x with
              | inl e => inl e
              | inr y => match map_exn f r with inl e => inl e | inr ys => inr (y :: ys) end
              end
  end.

(** [', '.join(xs)] needs strings only. *)
Definition join_names (xs : list json) : exn + list string :=
  map_exn (fun x => match x with JStr s => inr s | _ => inl XType end) xs.

(** ** HTTP exchanges *)

Inductive body : Type :=
| BJson (j : json)   (* a body that parses as JSON *)
| BText.             (* a body that does not *)

Record response : Type := mkResponse { status_code : Z; resp_body : body }.

(** What the server (or the network) does with one request. *)
Inductive http_outcome : Type :=
| Resp (code : Z) (b : body)
| Fail (e : net_err).

Inductive meth : Type := GET | POST.

Record request : Type := mkRequest {
  rq_meth : meth;
  rq_url : string;
  rq_headers : list (string * string);
  rq_json : option json;
  rq_timeout : nat
}.

(** [resp.json()] *)
Definition response_json (r : response) : exn + json :=
  match resp_body r with BJson j => inr j | BText => inl XJSONDecode end.

(** httpx's [resp.raise_for_status()]: anything but 2xx raises. *)
Definition raise_for_status (r : response) : exn + unit :=
  if ((200 <=? status_code r) && (status_code r <? 300))%Z then inr tt
  else inl (XHTTPStatus (status_code r)).

(** ** Printed lines

    One constructor per [print] of the two scripts, carrying the values the
    f-string interpolates. *)
Inductive msg : Type :=
(* check_ollama_config.py *)
| MRule                              (* "=" * 50 *)
| MBannerTitle                       (* "  Ollama Configuration Check" *)
| MBannerModel (m : string)          (* "  Model: {MODEL_NAME}" *)
| MBannerUrl (u : string)            (* "  URL:   {OLLAMA_BASE_URL}" *)
| MServerRunning                     (* "✅ Ollama server is running." *)
| MServerStatus (code : Z)           (* "❌ Ollama server returned status code: ..." *)
| MServerNoConnect                   (* "❌ Could not connect to Ollama server. ..." *)
| MServerTimeout                     (* "❌ Connection to Ollama server timed out." *)
| MModelAvailable (m : string)       (* "✅ Model '...' is available." *)
| MModelNotAvailable (m : string)    (* "❌ Model '...' is NOT available." *)
| MAvailableModels (names : list string)
    (* "   Available models: ', '.join(names)", or "None" for [] *)
| MPullHint (m : string)             (* "   Run: ollama pull ..." *)
| MAvailError (e : exn)              (* "❌ Error checking model availability: ..." *)
| MTestingInference (m : string)     (* "🔄 Testing inference with '...'..." *)
| MModelResponse (s : string)        (* "✅ Model response: ..." *)
| MInferenceStatus (code : Z)        (* "❌ Inference failed with status code: ..." *)
| MInferenceTimeout                  (* "❌ Inference request timed out." *)
| MInferenceError (e : exn)          (* "❌ Error during inference: ..." *)
| MInfoHeader (m : string)           (* "📋 Model Information for '...':" *)
| MInfoDetail (label : string) (v : json)  (* "   Parameters: ..." and the like *)
| MInfoStatus (code : Z)             (* "⚠️  Could not retrieve model info (status: ...)" *)
| MInfoError (e : exn)               (* "⚠️  Error retrieving model info: ..." *)
| MFailedServer                      (* "❌ Configuration check failed. Ollama server is not reachable." *)
| MFailedModel                       (* "❌ Configuration check failed. Required model is not available." *)
| MAllPassed                         (* "✅ All checks passed! Ollama is configured correctly." *)
| MSomeFailed                        (* "❌ Some checks failed. Please review the output above." *)
(* test_embedder.py *)
| MCfgNotFound                       (* "[ERROR] '...' not found. Run from the project root." *)
| MCfgParse                          (* "[ERROR] Failed to parse '...': ..." *)
| MCfgNoEmbedder                     (* "[ERROR] No model with kind='embedder' found ..." *)
| MEmbAlias (a : string)             (* "Embedder alias : '...'" *)
| MEmbField (label : string) (v : json)  (* "Model : ...", "Provider : ...", "Base URL : ..." *)
| MT1Header (url : string)           (* "[Test 1] Connection  →  ..." *)
| MT1Status (code : Z)               (* "  HTTP ... received." *)
| MConnectError (e : exn)            (* "  ConnectError: ..." *)
| MTimeoutExc (e : exn)              (* "  TimeoutException: ..." *)
| MUnexpected (e : exn)              (* "  Unexpected error: ..." *)
| MPass                              (* "  PASS" *)
| MFail                              (* "  FAIL" *)
| MT2Header (url : string)           (* "[Test 2] Embedding  →  POST ..." *)
| MT2Model (v : json)                (* "  Model  : ..." *)
| MT2Input (s : string)              (* "  Input  : ..." *)
| MHTTPError (code : Z)              (* "  HTTP error ...: <first 500 chars of the body>" *)
| MRequestFailed (e : exn)           (* "  Request failed: ..." *)
| MJSONParseFail                     (* "  Failed to parse JSON response: ..." *)
| MBadShape (payload : json)         (* "  Unexpected response shape (no 'data' list): ..." *)
| MEmbMissing                        (* "  'embedding' key missing or empty in first data item." *)
| MNotNumeric (vs : list json)       (* "  First 5 embedding values are not numeric: ..." *)
| MEmbDim (n : nat)                  (* "  Embedding dimension : ..." *)
| MFirstFive (vs : list json)        (* "  First 5 values      : [round(v, 6) for v in vs]" *)
| MT3Header (url : string)           (* "[Test 3] Context window  →  POST ..." *)
| MT3Model (v : json)                (* "  Model : ..." *)
| MNonOllama                         (* "  (Endpoint may not be available for non-Ollama providers.)" *)
| MNoModelinfo (payload : json)      (* "  No 'modelinfo' key in response. Full response: ..." *)
| MNoCtxKey                          (* "  No '*.context_length' key found in modelinfo." *)
| MAvailableKeys (ks : list string)  (* "  Available keys: ..." *)
| MCtxKey (k : string)               (* "  Context length key : ..." *)
| MMaxCtx (v : json)                 (* "  Max context window : {v:,} tokens" *)
| MSep                               (* "─" * 40 *)
| MResults (passed total : nat).     (* "Results: .../... test(s) passed." *)

(** The warning lines (marked ⚠️) of check_ollama_config.py. *)
Definition is_warning (m : msg) : bool :=
  match m with MInfoStatus _ | MInfoError _ => true | _ => false end.

(** ** The monad *)

Record state : Type := mkState {
  inputs : list http_outcome;   (* answers to the requests still to come *)
  sent : list request;          (* requests issued so far, oldest first *)
  out : list msg                (* lines printed so far, oldest first *)
}.

Definition M (A : Type) : Type := state -> (exn + A) * state.

Definition ret {A} (a : A) : M A := fun s => (inr a, s).

Definition bind {A B} (m : M A) (k : A -> M B) : M B :=
  fun s => match m s with
           | (inl e, s') => (inl e, s')
           | (inr a, s') => k a s'
           end.

Notation "x <- m ;; k" := (bind m (fun x => k))
  (at level 61, m at next level, right associativity).
Notation "m ;; k" := (bind m (fun _ : unit => k))
  (at level 61, right associativity).

Definition raise {A} (e : exn) : M A := fun s => (inl e, s).

(** Evaluating a Python expression that may raise. *)
Definition lift {A} (r : exn + A) : M A := fun s => (r, s).

Definition print (m : msg) : M unit :=
  fun s => (inr tt, mkState (inputs s) (sent s) (out s ++ [m])).

(** [sys.exit(code)] *)
Definition sys_exit {A} (code : Z) : M A := raise (XSystemExit code).

(** [try: body except ...: handler]; [h e = None] when no clause matches. *)
Definition try_ {A} (body : M A) (h : exn -> option (M A)) : M A :=
  fun s => match body s with
           | (inl e, s') => match h e with Some k => k s' | None => (inl e, s') end
           | (inr a, s') => (inr a, s')
           end.

(** Issuing a request: it is recorded, and the next scripted outcome is its
    answer; once the script is exhausted the host refuses connections. *)
Definition http (rq : request) : M response :=
  fun s =>
    let s' r := mkState r (sent s ++ [rq]) (out s) in
    match inputs s with
    | [] => (inl (XNet NConnect), s' [])
    | Resp c b :: r => (inr (mkResponse c b), s' r)
    | Fail e :: r => (inl (XNet e), s' r)
    end.

Definition init (rs : list http_outcome) : state := mkState rs [] [].

(** Exit status of a Python process whose main raised or returned [r]. *)
Definition exit_status {A} (r : exn + A) : Z :=
  match r with
  | inr _ => 0
  | inl (XSystemExit c) => c
  | inl _ => 1
  end.

(** * check_ollama_config.py *)

Module HealthCheck.

Definition OLLAMA_BASE_URL : string := "http://localhost:11434".
Definition MODEL_NAME : string := "qwen3:4b".

Definition tags_request : request :=
  mkRequest GET (OLLAMA_BASE_URL ++ "/api/tags") [] None 5.

Definition check_ollama_status : M bool :=
  try_ (response <- http tags_request ;;
        if (status_code response =? 200)%Z
        then (print MServerRunning ;; ret true)
        else (print (MServerStatus (status_code response)) ;; ret false))
       (fun e =>
          if requests_ConnectionError e then Some (print MServerNoConnect ;; ret false)
          else if requests_Timeout e then Some (print MServerTimeout ;; ret false)
          else None).

(** The result is [Some b] for [return b] and [None] when the function ends
    without a [return] (Python's [None]). *)
Definition check_model_available : M (option bool) :=
  try_ (response <- http tags_request ;;
        if (status_code response =? 200)%Z then (
          j <- lift (response_json response) ;;
          models <- lift (py_get j "models" (JArr [])) ;;
          items <- lift (py_iter models) ;;
          model_names <- lift (map_exn (fun model => py_get model "name" (JStr "")) items) ;;
          found <- lift (py_any (py_in MODEL_NAME) model_names) ;;
          if found
          then (print (MModelAvailable MODEL_NAME) ;; ret (Some true))
          else (print (MModelNotAvailable MODEL_NAME) ;;
                names <- lift (join_names model_names) ;;
                print (MAvailableModels names) ;;
                print (MPullHint MODEL_NAME) ;;
                ret (Some false)))
        else ret None)
       (fun e => if is_Exception e then Some (print (MAvailError e) ;; ret (Some false)) else None).

Definition generate_payload : json :=
  JObj [("model", JStr MODEL_NAME);
        ("prompt", JStr "Say 'Hello, configuration test successful!' and nothing else.");
        ("stream", JBool false)].

Definition test_model_inference : M bool :=
  print (MTestingInference MODEL_NAME) ;;
  try_ (response <- http (mkRequest POST (OLLAMA_BASE_URL ++ "/api/generate") []
                                    (Some generate_payload) 60) ;;
        if (status_code response =? 200)%Z then (
          result <- lift (response_json response) ;;
          r <- lift (py_get result "response" (JStr "")) ;;
          output <- lift (py_strip r) ;;
          print (MModelResponse output) ;;
          ret true)
        else (print (MInferenceStatus (status_code response)) ;; ret false))
       (fun e =>
          if requests_Timeout e then Some (print MInferenceTimeout ;; ret false)
          else if is_Exception e then Some (print (MInferenceError e) ;; ret false)
          else None).

(** [print(f"   {label}: {info.get('details', {}).get(key, 'N/A')}")] *)
Definition print_detail (info : json) (label key : string) : M unit :=
  details <- lift (py_get info "details" (JObj [])) ;;
  v <- lift (py_get details key (JStr "N/A")) ;;
  print (MInfoDetail label v).

Definition print_model_info : M unit :=
  try_ (response <- http (mkRequest POST (OLLAMA_BASE_URL ++ "/api/show") []
                                    (Some (JObj [("name", JStr MODEL_NAME)])) 10) ;;
        if (status_code response =? 200)%Z then (
          info <- lift (response_json response) ;;
          print (MInfoHeader MODEL_NAME) ;;
          print_detail info "Parameters" "parameter_size" ;;
          print_detail info "Quantization" "quantization_level" ;;
          print_detail info "Format" "format" ;;
          print_detail info "Family" "family")
        else print (MInfoStatus (status_code response)))
       (fun e => if is_Exception e then Some (print (MInfoError e)) else None).

(** Truth value of [model_ok], which may be [None]. *)
Definition opt_truthy (o : option bool) : bool :=
  match o with Some b => b | None => false end.

Definition main : M unit :=
  print MRule ;; print MBannerTitle ;; print (MBannerModel MODEL_NAME) ;;
  print (MBannerUrl OLLAMA_BASE_URL) ;; print MRule ;;
  server_ok <- check_ollama_status ;;
  if negb server_ok then (print MFailedServer ;; ret tt) else (
  model_ok <- check_model_available ;;
  if negb (opt_truthy model_ok) then (print MFailedModel ;; ret tt) else (
  print_model_info ;;
  inference_ok <- test_model_inference ;;
  print MRule ;;
  (if server_ok && opt_truthy model_ok && inference_ok
   then print MAllPassed else print MSomeFailed) ;;
  print MRule)).

(** A run of [python check_ollama_config.py] against scripted answers. *)
Definition run (rs : list http_outcome) : (exn + unit) * state := main (init rs).

Definition exit_code (rs : list http_outcome) : Z := exit_status (fst (run rs)).

(** The value one check returns when its single request gets answer [r]. *)
Definition result_of {A} (m : M A) (r : http_outcome) : exn + A := fst (m (init [r])).

End HealthCheck.

(** * test_embedder.py *)

Module Embedder.

(** The content of [llm_models_json.json] as [open] and [json.load] see it. *)
Inductive config_file : Type :=
| CfgMissing                     (* open() raises FileNotFoundError *)
| CfgOpenError                   (* open() raises another OSError *)
| CfgUndecodable                 (* reading raises UnicodeDecodeError *)
| CfgText (parsed : option json). (* [None]: json.load raises JSONDecodeError *)

Definition TEST_SENTENCE : string := "Embed this sentence.".

Definition read_models (f : config_file) : M json :=
  match f with
  | CfgMissing => raise XFileNotFound
  | CfgOpenError => raise XOSError
  | CfgUndecodable => raise XUnicodeDecode
  | CfgText None => raise XJSONDecode
  | CfgText (Some j) => ret j
  end.

(** [cfg.get("kind") == "embedder"] *)
Definition is_embedder_kind (v : json) : bool :=
  match v with JStr s => String.eqb s "embedder" | _ => false end.

(** The [for alias, cfg in models.items()] loop and what follows it. *)
Fixpoint find_embedder (items : list (string * json)) : M (string * json) :=
  match items with
  | [] => print MCfgNoEmbedder ;; sys_exit 1
  | (alias, cfg) :: rest =>
      kind <- lift (py_get cfg "kind" JNull) ;;
      if is_embedder_kind kind then ret (alias, cfg) else find_embedder rest
  end.

Definition _load_embedder_cfg (f : config_file) : M (string * json) :=
  models <- try_ (read_models f)
                 (fun e => match e with
                           | XFileNotFound => Some (print MCfgNotFound ;; sys_exit 1)
                           | XJSONDecode => Some (print MCfgParse ;; sys_exit 1)
                           | _ => None
                           end) ;;
  items <- lift (py_items models) ;;
  find_embedder items.

Definition placeholder_keys : list string := [""; "none"; "ollama"; "no_key_required"].

Definition _headers (cfg : json) : exn + list (string * string) :=
  let headers := [("Content-Type", "application/json")] in
  match py_get cfg "api_key" (JStr "") with
  | inl e => inl e
  | inr api_key =>
      if py_truthy api_key then
        match api_key with
        | JStr s =>
            if existsb (String.eqb (py_lower s)) placeholder_keys then inr headers
            else inr (headers ++ [("Authorization", ("Bearer " ++ s)%string)])
        | _ => inl XAttribute
        end
      else inr headers
  end.

(** [cfg["base_url"].rstrip("/")] *)
Definition base_url_of (cfg : json) : exn + string :=
  match cfg with
  | JObj kvs =>
      match dict_get kvs "base_url" with
      | Some (JStr s) => inr (rstrip_slash s)
      | Some _ => inl XAttribute
      | None => inl XKey
      end
  | _ => inl XType
  end.

(** [cfg.get("model") or alias] *)
Definition model_name_of (alias : string) (cfg : json) : exn + json :=
  match py_get cfg "model" JNull with
  | inl e => inl e
  | inr m => inr (if py_truthy m then m else JStr alias)
  end.

Definition test_connection (alias : string) (cfg : json) : M bool :=
  base_url <- lift (base_url_of cfg) ;;
  print (MT1Header base_url) ;;
  ok <- try_ (resp <- http (mkRequest GET base_url [] None 10) ;;
              print (MT1Status (status_code resp)) ;;
              print MPass ;;
              ret true)
             (fun e =>
                if httpx_ConnectError e then Some (print (MConnectError e) ;; ret false)
                else if httpx_TimeoutException e then Some (print (MTimeoutExc e) ;; ret false)
                else if is_Exception e then Some (print (MUnexpected e) ;; ret false)
                else None) ;;
  if ok then ret true else (print MFail ;; ret false).

(** The first [try] of tests 2 and 3: the request and [raise_for_status];
    [None] when an [except] clause returned False. *)
Definition post_checked (rq : request) (status_note : bool) : M (option response) :=
  try_ (resp <- http rq ;; lift (raise_for_status resp) ;; ret (Some resp))
       (fun e =>
          match e with
          | XHTTPStatus c =>
              Some (print (MHTTPError c) ;;
                    (if status_note then print MNonOllama else ret tt) ;;
                    print MFail ;; ret None)
          | _ =>
              if httpx_ConnectError e || httpx_TimeoutException e
              then Some (print (MRequestFailed e) ;; print MFail ;; ret None)
              else None
          end).

(** The second [try]: [resp.json()]. *)
Definition parse_payload (resp : response) : M (option json) :=
  try_ (j <- lift (response_json resp) ;; ret (Some j))
       (fun e => if is_Exception e then Some (print MJSONParseFail ;; print MFail ;; ret None)
                 else None).

Definition test_embedding (alias : string) (cfg : json) (sentence : string) : M bool :=
  model_name <- lift (model_name_of alias cfg) ;;
  base <- lift (base_url_of cfg) ;;
  let url := (base ++ "/v1/embeddings")%string in
  let body := JObj [("model", model_name); ("input", JArr [JStr sentence])] in
  print (MT2Header url) ;; print (MT2Model model_name) ;; print (MT2Input sentence) ;;
  r <- try_ (headers <- lift (_headers cfg) ;;
             (* the request is the argument evaluation inside the same [try] *)
             resp <- http (mkRequest POST url headers (Some body) 30) ;;
             lift (raise_for_status resp) ;; ret (Some resp))
            (fun e =>
               match e with
               | XHTTPStatus c => Some (print (MHTTPError c) ;; print MFail ;; ret None)
               | _ =>
                   if httpx_ConnectError e || httpx_TimeoutException e
                   then Some (print (MRequestFailed e) ;; print MFail ;; ret None)
                   else None
               end) ;;
  match r with None => ret false | Some resp =>
  p <- parse_payload resp ;;
  match p with None => ret false | Some payload =>
  data <- lift (py_get payload "data" JNull) ;;
  match data with
  | JArr (d0 :: _) =>
      embedding <- lift (py_get d0 "embedding" JNull) ;;
      match embedding with
      | JArr ((_ :: _) as vs) =>
          if forallb is_numeric (firstn 5 vs)
          then (print (MEmbDim (length vs)) ;; print (MFirstFive (firstn 5 vs)) ;;
                print MPass ;; ret true)
          else (print (MNotNumeric (firstn 5 vs)) ;; print MFail ;; ret false)
      | _ => print MEmbMissing ;; print MFail ;; ret false
      end
  | _ => print (MBadShape payload) ;; print MFail ;; ret false
  end end end.

(** [next((k for k in modelinfo if k.endswith(".context_length")), None)] *)
Fixpoint find_ctx_key (ks : list json) : exn + option string :=
  match ks with
  | [] => inr None
  | JStr k :: rest => if ends_with ".context_length" k then inr (Some k) else find_ctx_key rest
  | _ :: _ => inl XAttribute
  end.

(** [modelinfo[k]] for a key [k] the iteration produced. *)
Definition py_index (o : json) (k : string) : exn + json :=
  match o with
  | JObj kvs => match dict_get kvs k with Some v => inr v | None => inl XKey end
  | _ => inl XType
  end.

Definition test_context_window (alias : string) (cfg : json) : M bool :=
  model_name <- lift (model_name_of alias cfg) ;;
  base <- lift (base_url_of cfg) ;;
  let url := (base ++ "/api/show")%string in
  print (MT3Header url) ;; print (MT3Model model_name) ;;
  r <- post_checked (mkRequest POST url [] (Some (JObj [("name", model_name)])) 15) true ;;
  match r with None => ret false | Some resp =>
  p <- parse_payload resp ;;
  match p with None => ret false | Some payload =>
  modelinfo <- lift (py_get payload "modelinfo" (JObj [])) ;;
  if negb (py_truthy modelinfo)
  then (print (MNoModelinfo payload) ;; print MFail ;; ret false)
  else (
    ks <- lift (py_iter modelinfo) ;;
    ctx_key <- lift (find_ctx_key ks) ;;
    match ctx_key with
    | None =>
        print MNoCtxKey ;;
        keys <- lift (py_keys modelinfo) ;;
        print (MAvailableKeys keys) ;;
        print MFail ;; ret false
    | Some k =>
        context_length <- lift (py_index modelinfo k) ;;
        print (MCtxKey k) ;;
        lift (format_thousands context_length) ;;
        print (MMaxCtx context_length) ;;
        print MPass ;; ret true
    end)
  end end.

Definition count_true (bs : list bool) : nat := length (filter (fun b => b) bs).

Definition main (f : config_file) : M unit :=
  ac <- _load_embedder_cfg f ;;
  let (alias, cfg) := ac in
  print (MEmbAlias alias) ;;
  m <- lift (py_get cfg "model" JNull) ;; print (MEmbField "Model" m) ;;
  p <- lift (py_get cfg "provider" JNull) ;; print (MEmbField "Provider" p) ;;
  u <- lift (py_get cfg "base_url" JNull) ;; print (MEmbField "Base URL" u) ;;
  r1 <- test_connection alias cfg ;;
  r2 <- test_embedding alias cfg TEST_SENTENCE ;;
  r3 <- test_context_window alias cfg ;;
  let results := [r1; r2; r3] in
  let passed := count_true results in
  let total := length results in
  print MSep ;;
  print (MResults passed total) ;;
  if (passed <? total)%nat then sys_exit 1 else ret tt.

(** A run of [python test_embedder.py] with configuration [f] against
    scripted answers [rs]. *)
Definition run (f : config_file) (rs : list http_outcome) : (exn + unit) * state :=
  main f (init rs).

Definition exit_code (f : config_file) (rs : list http_outcome) : Z :=
  exit_status (fst (run f rs)).

End Embedder.

(** * Properties *)

(** Outcomes of the liveness probe that the claims call a failure: a
    non-200 status, a refused or dropped connection, a timeout. *)
Definition liveness_failure (r : http_outcome) : Prop :=
  (exists c b, r = Resp c b /\ c <> 200%Z) \/
  r = Fail NConnect \/ r = Fail NConnectTimeout \/ r = Fail NReadTimeout \/
  r = Fail NReadError.

(** The metadata request failed: no answer or a status other than 200. *)
Definition metadata_failure (r : http_outcome) : Prop :=
  match r with Fail _ => True | Resp c _ => c <> 200%Z end.

(** The lines print_model_info may print: its header, the detail lines and
    the warnings. *)
Definition metadata_line (m : msg) : Prop :=
  is_warning m = true \/ (exists x, m = MInfoHeader x) \/ (exists l v, m = MInfoDetail l v).

(** What a check does when its request gets the first scripted answer:
    it returns what it returns on that answer alone, consumes one answer
    and only appends output lines, none of which is the final verdict. *)
Definition step_ok {A} (m : M A) : Prop :=
  forall i snt ot, exists ls s',
    m (mkState i snt ot) = (HealthCheck.result_of m (hd (Fail NConnect) i), s') /\
    inputs s' = tl i /\ out s' = ot ++ ls /\ ~ In MAllPassed ls.

(** [m] appends only lines on which [P] is false, and raises SystemExit
    only with a code satisfying [Q]. *)
Definition tame (P : msg -> bool) (Q : Z -> Prop) {A} (m : M A) : Prop :=
  forall s, exists ls,
    out (snd (m s)) = out s ++ ls /\ Forall (fun l => P l = false) ls /\
    (forall c, fst (m s) = inl (XSystemExit c) -> Q c).

(** The summary line of test_embedder.py reporting all three tests passed. *)
Definition is_results (m : msg) : bool :=
  match m with MResults _ _ => true | _ => false end.

(** ** Predicates of the test_embedder.py claims *)

(** The configuration holds an entry whose 'kind' is "embedder". *)
Definition has_embedder (j : json) : Prop :=
  exists kvs alias cfg, j = JObj kvs /\ In (alias, cfg) kvs /\
    py_get cfg "kind" JNull = inr (JStr "embedder").

(** A configuration the tester cannot use: missing, unreadable, not JSON,
    or without an embedder entry. *)
Definition config_unusable (f : Embedder.config_file) : Prop :=
  f = Embedder.CfgMissing \/ f = Embedder.CfgOpenError \/ f = Embedder.CfgUndecodable \/
  f = Embedder.CfgText None \/ exists j, f = Embedder.CfgText (Some j) /\ ~ has_embedder j.

(** The diagnostic lines of the configuration loader. *)
Definition cfg_diagnostic (m : msg) : Prop :=
  m = MCfgNotFound \/ m = MCfgParse \/ m = MCfgNoEmbedder.

(** A real credential: not empty and, lower-cased, none of the placeholder
    sentinels. *)
Definition real_api_key (key : string) : Prop :=
  key <> "" /\ ~ In (py_lower key) ["none"; "ollama"; "no_key_required"].

(** An embeddings response the embedding test accepts, with its vector: a
    JSON object whose 'data' is a non-empty list, whose first item is an
    object with a non-empty 'embedding' list, the first five entries of
    which are numbers. *)
Definition embedding_accepted (payload : json) (vs : list json) : Prop :=
  exists kvs dkvs items, payload = JObj kvs /\
    dict_get kvs "data" = Some (JArr (JObj dkvs :: items)) /\
    dict_get dkvs "embedding" = Some (JArr vs) /\ vs <> [] /\
    Forall (fun v => is_numeric v = true) (firstn 5 vs).

(** The response shape as the embedding claim words it: a non-empty 'data'
    list each item of which holds a non-empty list of numbers under
    'embedding'. *)
Definition claimed_embedding_shape (payload : json) : Prop :=
  exists kvs items, payload = JObj kvs /\ dict_get kvs "data" = Some (JArr items) /\
    items <> [] /\
    Forall (fun it => exists dkvs vs, it = JObj dkvs /\
              dict_get dkvs "embedding" = Some (JArr vs) /\ vs <> [] /\
              Forall (fun v => is_numeric v = true) vs) items.

(** The end of a run of test_embedder.py: it exits with 0 exactly when the
    summary reports three passed tests out of three, and otherwise with 1. *)
Definition exit_summary (p : (exn + unit) * state) : Prop :=
  (exit_status (fst p) = 0%Z <-> In (MResults 3 3) (out (snd p))) /\
  (exit_status (fst p) = 0%Z \/ exit_status (fst p) = 1%Z).

(** A metadata entry whose key names the context length. *)
Definition ctx_length_entry (kv : string * json) : bool :=
  ends_with ".context_length" (fst kv).

(** The tag listing [j] lists models with names [names]: its 'models' is a
    list of objects, each with a string 'name' (a missing name reads as ""). *)
Definition lists_models (j : json) (names : list string) : Prop :=
  exists items, py_get j "models" (JArr []) = inr (JArr items) /\
    Forall2 (fun it n => py_get it "name" (JStr "") = inr (JStr n)) items names.

(** ** Predicates of the further properties *)

(** The requests check_ollama_config.py sends after the two tag listings. *)
Definition show_request : request :=
  mkRequest POST (HealthCheck.OLLAMA_BASE_URL ++ "/api/show") []
            (Some (JObj [("name", JStr HealthCheck.MODEL_NAME)])) 10.

Definition generate_request : request :=
  mkRequest POST (HealthCheck.OLLAMA_BASE_URL ++ "/api/generate") []
            (Some HealthCheck.generate_payload) 60.

(** [m] issues exactly one request, [rq], whatever the state. *)
Definition sends_one {A} (m : M A) (rq : request) : Prop :=
  forall i snt ot, sent (snd (m (mkState i snt ot))) = snt ++ [rq].

(** An answer the embedding and context-window tests catch around their
    request: an HTTP status outside 2xx, a refused connection, a timeout. *)
Definition caught_failure (r : http_outcome) : Prop :=
  (exists c b, r = Resp c b /\ ~ (200 <= c < 300)%Z) \/
  r = Fail NConnect \/ r = Fail NConnectTimeout \/ r = Fail NReadTimeout.

(** The entries of a configuration before the embedder: objects whose
    'kind' is not "embedder". *)
Definition skipped_entry (kv : string * json) : Prop :=
  exists ckvs, snd kv = JObj ckvs /\
    Embedder.is_embedder_kind (match dict_get ckvs "kind" with Some v => v | None => JNull end) = false.

(** Evaluate the model through every case split its matches ask for,
    splitting on the innermost data first and never on a computation. *)
Ltac destructible x :=
  lazymatch type of x with
  | context [state] => fail
  | context [M] => fail
  | _ => idtac
  end.

Ltac destruct_inner x :=
  first [ match x with
          | context [match ?y with _ => _ end] => destructible y; destruct_inner y
          end
        | destructible x; first [ is_var x; destruct x | destruct x eqn:? ] ].

(** [crush_with t] runs [t] (rewriting with facts of the context, or a case
    split of its own) before and after the simplification of each round. *)
Ltac crush_with t :=
  unfold try_, bind, http, print, ret, lift, raise, sys_exit, init,
    py_get, py_items, py_keys, py_iter, response_json, raise_for_status, py_strip,
    format_thousands in *;
  repeat (try t;
          simpl in *;
          try t;
          try match goal with
              | |- context [match ?x with _ => _ end] => destructible x; destruct_inner x
              end;
          try discriminate).

Ltac crush := crush_with idtac.

Ltac finish_step :=
  eexists _, _; split; [reflexivity | split; [reflexivity | split;
    [ simpl; first [ rewrite <- ?app_assoc; reflexivity | symmetry; apply app_nil_r ]
    | simpl; intuition congruence ]]].

(** ** No helper raises SystemExit *)

Create HintDb noexit.

Lemma py_get_no_exit o k d c : py_get o k d <> inl (XSystemExit c).
Proof. destruct o; discriminate. Qed.

Lemma py_items_no_exit o c : py_items o <> inl (XSystemExit c).
Proof. destruct o; discriminate. Qed.

Lemma py_keys_no_exit o c : py_keys o <> inl (XSystemExit c).
Proof. destruct o; discriminate. Qed.

Lemma py_iter_no_exit o c : py_iter o <> inl (XSystemExit c).
Proof. destruct o; discriminate. Qed.

Lemma py_in_no_exit n o c : py_in n o <> inl (XSystemExit c).
Proof. destruct o; discriminate. Qed.

Lemma py_strip_no_exit o c : py_strip o <> inl (XSystemExit c).
Proof. destruct o; discriminate. Qed.

Lemma format_thousands_no_exit o c : format_thousands o <> inl (XSystemExit c).
Proof. destruct o; discriminate. Qed.

Lemma response_json_no_exit r c : response_json r <> inl (XSystemExit c).
Proof. destruct r as [? []]; discriminate. Qed.

Lemma raise_for_status_no_exit r c : raise_for_status r <> inl (XSystemExit c).
Proof. unfold raise_for_status; destruct (_ && _); discriminate. Qed.

Lemma map_exn_no_exit {A B} (f : A -> exn + B) xs c :
  (forall x, f x <> inl (XSystemExit c)) -> map_exn f xs <> inl (XSystemExit c).
Proof.
  intros Hf; induction xs as [|x xs IH]; simpl; [discriminate|].
  specialize (Hf x); destruct (f x) as [e|y]; [intros H; injection H as ->; exact (Hf eq_refl)|].
  destruct (map_exn f xs); [exact IH | discriminate].
Qed.

Lemma py_any_no_exit {A} (p : A -> exn + bool) xs c :
  (forall x, p x <> inl (XSystemExit c)) -> py_any p xs <> inl (XSystemExit c).
Proof.
  intros Hp; induction xs as [|x xs IH]; simpl; [discriminate|].
  specialize (Hp x); destruct (p x) as [e|[]]; [exact Hp|discriminate|exact IH].
Qed.

Lemma join_names_no_exit xs c : join_names xs <> inl (XSystemExit c).
Proof. apply map_exn_no_exit; intros []; discriminate. Qed.

#[export] Hint Resolve py_get_no_exit py_items_no_exit py_keys_no_exit py_iter_no_exit
  py_in_no_exit py_strip_no_exit format_thousands_no_exit response_json_no_exit
  raise_for_status_no_exit map_exn_no_exit py_any_no_exit join_names_no_exit : noexit.

Lemma base_url_of_no_exit cfg c : Embedder.base_url_of cfg <> inl (XSystemExit c).
Proof. unfold Embedder.base_url_of; destruct cfg; try discriminate; destruct (dict_get _ _) as [[]|]; discriminate. Qed.

Lemma model_name_of_no_exit a cfg c : Embedder.model_name_of a cfg <> inl (XSystemExit c).
Proof. unfold Embedder.model_name_of; destruct cfg; discriminate. Qed.

Lemma _headers_no_exit cfg c : Embedder._headers cfg <> inl (XSystemExit c).
Proof.
  unfold Embedder._headers; destruct (py_get cfg "api_key" (JStr "")) as [e|v] eqn:E.
  - intros H; injection H as ->; exact (py_get_no_exit _ _ _ _ E).
  - destruct (py_truthy v); [destruct v; try discriminate; destruct (existsb _ _)|]; discriminate.
Qed.

Lemma find_ctx_key_no_exit ks c : Embedder.find_ctx_key ks <> inl (XSystemExit c).
Proof.
  induction ks as [|[] ks IH]; simpl; try discriminate; [destruct (ends_with _ _)]; easy.
Qed.

Lemma py_index_no_exit o k c : Embedder.py_index o k <> inl (XSystemExit c).
Proof. destruct o; try discriminate; simpl; destruct (dict_get _ _); discriminate. Qed.

#[export] Hint Resolve base_url_of_no_exit model_name_of_no_exit _headers_no_exit
  find_ctx_key_no_exit py_index_no_exit : noexit.

(** ** [tame] is compositional *)

Section Tame.
Variable P : msg -> bool.
Variable Q : Z -> Prop.

Lemma tame_ret {A} (a : A) : tame P Q (ret a).
Proof. intros s; exists []; rewrite app_nil_r; repeat split; auto; discriminate. Qed.

Lemma tame_print l : P l = false -> tame P Q (print l).
Proof. intros Hl s; exists [l]; repeat split; auto; discriminate. Qed.

Lemma tame_http rq : tame P Q (http rq).
Proof.
  intros [[|[c b|e] rest] snt ot]; exists []; rewrite app_nil_r;
    repeat split; auto; simpl; discriminate.
Qed.

Lemma tame_lift {A} (r : exn + A) : (forall c, r <> inl (XSystemExit c)) -> tame P Q (lift r).
Proof.
  intros Hr s; exists []; rewrite app_nil_r; repeat split; auto.
  intros c Hc; exfalso; exact (Hr c Hc).
Qed.

Lemma tame_raise {A} e : is_Exception e = true -> tame P Q (raise (A := A) e).
Proof.
  intros He s; exists []; rewrite app_nil_r; repeat split; auto.
  intros c H; injection H as ->; discriminate He.
Qed.

Lemma tame_sys_exit {A} c : Q c -> tame P Q (sys_exit (A := A) c).
Proof.
  intros Hc s; exists []; rewrite app_nil_r; repeat split; auto.
  intros c' H; injection H as <-; exact Hc.
Qed.

Lemma tame_bind {A B} (m : M A) (k : A -> M B) :
  tame P Q m -> (forall a, tame P Q (k a)) -> tame P Q (bind m k).
Proof.
  intros Hm Hk s; destruct (Hm s) as (ls1 & O1 & F1 & X1); unfold bind.
  destruct (m s) as [[e|a] s1] eqn:E; simpl in *.
  - exists ls1; repeat split; auto.
    intros c H; apply X1; injection H as ->; reflexivity.
  - destruct (Hk a s1) as (ls2 & O2 & F2 & X2).
    exists (ls1 ++ ls2); destruct (k a s1) as [r2 s2]; simpl in *.
    rewrite O2, O1, app_assoc; repeat split; auto.
    apply Forall_app; auto.
Qed.

Lemma tame_try {A} (body : M A) h :
  tame P Q body -> (forall e k, h e = Some k -> tame P Q k) -> tame P Q (try_ body h).
Proof.
  intros Hb Hh s; destruct (Hb s) as (ls1 & O1 & F1 & X1); unfold try_.
  destruct (body s) as [[e|a] s1] eqn:E; simpl in *.
  - destruct (h e) as [k|] eqn:He.
    + destruct (Hh e k He s1) as (ls2 & O2 & F2 & X2).
      exists (ls1 ++ ls2); destruct (k s1) as [r2 s2]; simpl in *.
      rewrite O2, O1, app_assoc; repeat split; auto.
      apply Forall_app; auto.
    + exists ls1; repeat split; auto.
  - exists ls1; repeat split; auto.
Qed.

End Tame.

Ltac handler_inv Hk :=
  simpl in Hk;
  repeat match type of Hk with
         | context [match ?x with _ => _ end] => destructible x; destruct_inner x
         end;
  try discriminate Hk; injection Hk as <-.

Ltac tame_tac :=
  repeat (intros;
    lazymatch goal with
    | |- tame _ _ (bind _ _) => apply tame_bind
    | |- tame _ _ (try_ _ _) =>
        apply tame_try; [| let e := fresh "e" in let k := fresh "k" in let Hk := fresh "Hk" in
                           intros e k Hk; handler_inv Hk ]
    | |- tame _ _ (print _) => apply tame_print; reflexivity
    | |- tame _ _ (ret _) => apply tame_ret
    | |- tame _ _ (http _) => apply tame_http
    | |- tame _ _ (lift _) => apply tame_lift; intros ?c; eauto with noexit
    | |- tame _ _ (sys_exit _) => apply tame_sys_exit; reflexivity
    | |- tame _ _ (raise _) => apply tame_raise; reflexivity
    | |- tame _ _ (match ?x with _ => _ end) => destruct x
    end).

Module HealthCheckProofs.
Import HealthCheck.

Lemma check_ollama_status_step : step_ok check_ollama_status.
Proof.
  intros [|r rest] snt ot; [|destruct r as [c b|e]]; unfold check_ollama_status, result_of;
    crush; finish_step.
Qed.

Lemma check_model_available_step : step_ok check_model_available.
Proof.
  intros [|r rest] snt ot; [|destruct r as [c b|e]]; unfold check_model_available, result_of;
    crush; finish_step.
Qed.

Lemma print_model_info_step : step_ok print_model_info.
Proof.
  intros [|r rest] snt ot; [|destruct r as [c b|e]];
    unfold print_model_info, print_detail, result_of; crush; finish_step.
Qed.

Lemma test_model_inference_step : step_ok test_model_inference.
Proof.
  intros [|r rest] snt ot; [|destruct r as [c b|e]]; unfold test_model_inference, result_of;
    crush; finish_step.
Qed.

Lemma print_model_info_total (r : http_outcome) : result_of print_model_info r = inr tt.
Proof.
  destruct r as [c b|e]; unfold print_model_info, print_detail, result_of; crush; reflexivity.
Qed.

(** Run one check inside [main] through its step lemma. *)
Ltac step_through m L :=
  unfold bind at 1;
  match goal with
  | |- context [m (mkState ?i ?snt ?ot)] =>
      let ls := fresh "ls" in let s := fresh "s" in let E := fresh "E" in
      let I := fresh "I" in let O := fresh "O" in let N := fresh "N" in
      destruct (L i snt ot) as (ls & s & E & I & O & N); rewrite E;
      destruct s as [? ? ?]; cbn [hd tl] in *; simpl in I, O; subst
  end.

Ltac no_verdict :=
  repeat rewrite in_app_iff; simpl; intuition congruence.

Lemma main_verdict (r1 r2 r3 r4 : http_outcome) (rest : list http_outcome) :
  In MAllPassed (out (snd (run (r1 :: r2 :: r3 :: r4 :: rest)))) <->
  result_of check_ollama_status r1 = inr true /\
  result_of check_model_available r2 = inr (Some true) /\
  result_of test_model_inference r4 = inr true.
Proof.
  unfold run, main, init.
  cbn -[check_ollama_status check_model_available print_model_info test_model_inference].
  step_through check_ollama_status check_ollama_status_step.
  destruct (result_of check_ollama_status r1) as [e1|[|]]; cbn -[check_model_available
    print_model_info test_model_inference]; [no_verdict| |no_verdict].
  step_through check_model_available check_model_available_step.
  destruct (result_of check_model_available r2) as [e2|[[|]|]]; cbn -[print_model_info
    test_model_inference]; try no_verdict.
  step_through print_model_info print_model_info_step.
  rewrite print_model_info_total; cbn -[test_model_inference].
  step_through test_model_inference test_model_inference_step.
  destruct (result_of test_model_inference r4) as [e4|[|]]; cbn; no_verdict.
Qed.

Lemma check_ollama_status_result (r : http_outcome) :
  result_of check_ollama_status r =
  match r with
  | Resp c _ => inr (c =? 200)%Z
  | Fail NOther => inl (XNet NOther)
  | Fail _ => inr false
  end.
Proof.
  destruct r as [c b|[]]; unfold check_ollama_status, result_of; crush; reflexivity.
Qed.

(** A [try] whose body never raises SystemExit and whose handler catches
    every other exception with a step that returns. *)
Ltac catch_all_total :=
  match goal with
  | |- exists v, fst (try_ ?b ?h ?s) = inr v =>
      let T := fresh "T" in let X := fresh "X" in
      assert (T : tame (fun _ => false) (fun _ => False) b) by (unfold print_detail; tame_tac);
      destruct (T s) as (? & _ & _ & X); unfold try_;
      destruct (b s) as [[[[]|?| | | | | | | | |?] | ?] ?]; simpl in X |- *;
      solve [ eexists; reflexivity | destruct (X _ eq_refl) ]
  end.

Lemma check_model_available_total (r : http_outcome) :
  exists v, result_of check_model_available r = inr v.
Proof. unfold result_of, check_model_available; catch_all_total. Qed.

Lemma test_model_inference_total (r : http_outcome) :
  exists v, result_of test_model_inference r = inr v.
Proof.
  unfold result_of, test_model_inference.
  unfold bind at 1; unfold print at 1; cbv beta iota zeta; catch_all_total.
Qed.

(** The exit status of check_ollama_config.py: main never calls sys.exit,
    so the process exits with 0 unless the liveness probe raises an error
    that its two [except] clauses do not catch. *)
Lemma health_check_exit_code (rs : list http_outcome) :
  exit_code rs = match rs with Fail NOther :: _ => 1%Z | _ => 0%Z end.
Proof.
  unfold exit_code, run, main, init.
  cbn -[check_ollama_status check_model_available print_model_info test_model_inference].
  destruct rs as [|r rs];
  step_through check_ollama_status check_ollama_status_step;
  rewrite check_ollama_status_result;
  [| destruct r as [c b|[]]; [destruct (c =? 200)%Z| | | | |]]; cbn -[check_model_available
    print_model_info test_model_inference]; try reflexivity;
  step_through check_model_available check_model_available_step;
  match goal with |- context [result_of check_model_available ?r] =>
    destruct (check_model_available_total r) as [v2 ->] end;
  destruct v2 as [[|]|]; cbn -[print_model_info test_model_inference]; try reflexivity;
  step_through print_model_info print_model_info_step;
  rewrite print_model_info_total; cbn -[test_model_inference];
  step_through test_model_inference test_model_inference_step;
  match goal with |- context [result_of test_model_inference ?r] =>
    destruct (test_model_inference_total r) as [v4 ->] end;
  destruct v4; reflexivity.
Qed.

Ltac meta_lines :=
  apply Forall_forall; intros x Hx; simpl in Hx;
  repeat (destruct Hx as [<-|Hx];
          [unfold metadata_line;
           solve [ left; reflexivity | right; left; eexists; reflexivity
                 | right; right; eexists _, _; reflexivity ] |]);
  contradiction.

Ltac meta_finish :=
  eexists _, _; split; [reflexivity|]; split;
  [ simpl; first [ rewrite <- ?app_assoc; reflexivity | symmetry; apply app_nil_r ] |];
  split; [ meta_lines | intros Hf; simpl in Hf;
                        solve [ contradiction | eexists; split; reflexivity ] ].

(** C5: the verdict "All checks passed" is printed exactly when liveness,
    availability and inference all succeed, whatever the metadata request
    ([r3]) gets; print_model_info never raises, prints only its header, its
    detail lines and warnings, and when its request fails it prints exactly
    one line, a warning. *)
Theorem health_verdict_ignores_metadata :
  (forall r1 r2 r3 r4 rest,
     In MAllPassed (out (snd (run (r1 :: r2 :: r3 :: r4 :: rest)))) <->
     result_of check_ollama_status r1 = inr true /\
     result_of check_model_available r2 = inr (Some true) /\
     result_of test_model_inference r4 = inr true) /\
  (forall i snt ot, exists ls s',
     print_model_info (mkState i snt ot) = (inr tt, s') /\ out s' = ot ++ ls /\
     Forall metadata_line ls /\
     (metadata_failure (hd (Fail NConnect) i) -> exists w, ls = [w] /\ is_warning w = true)).
Proof.
  split; [exact main_verdict|].
  intros [|[c b|e] rest] snt ot.
  - unfold print_model_info; crush; meta_finish.
  - destruct (Z.eqb_spec c 200) as [->|Hc].
    + unfold print_model_info, print_detail; crush; meta_finish.
    + apply Z.eqb_neq in Hc; unfold print_model_info; crush; meta_finish.
  - unfold print_model_info; crush; meta_finish.
Qed.

(** C6: the liveness check succeeds exactly on an HTTP 200 answer, whatever
    its body; on a non-200 status, a refused or dropped connection or a
    timeout it returns False, and main then stops: no further request is
    issued and the last line is the failure message. *)
Theorem liveness_check_spec (r : http_outcome) (rest : list http_outcome) :
  (result_of check_ollama_status r = inr true <-> exists b, r = Resp 200 b) /\
  (liveness_failure r ->
     result_of check_ollama_status r = inr false /\
     fst (run (r :: rest)) = inr tt /\
     sent (snd (run (r :: rest))) = [tags_request] /\
     inputs (snd (run (r :: rest))) = rest /\
     last (out (snd (run (r :: rest)))) MRule = MFailedServer).
Proof.
  split.
  - rewrite check_ollama_status_result.
    destruct r as [c b|[]]; split; intros H;
      try discriminate; try (destruct H; discriminate).
    + destruct (Z.eqb_spec c 200) as [->|]; [eauto | discriminate].
    + destruct H as [b' H]; injection H as -> ->; reflexivity.
  - intros [(c & b & E & Hc)|[E|[E|[E|E]]]]; subst r;
      try apply Z.eqb_neq in Hc;
      unfold result_of, run, main, check_ollama_status; crush; try congruence; repeat split.
Qed.

Lemma liveness_check_spec_witness :
  liveness_failure (Resp 500 BText) /\
  result_of check_ollama_status (Resp 500 BText) = inr false /\
  fst (run [Resp 500 BText]) = inr tt.
Proof.
  assert (H : liveness_failure (Resp 500 BText)) by (left; exists 500%Z, BText; split; [reflexivity|discriminate]).
  destruct (proj2 (liveness_check_spec (Resp 500 BText) []) H) as (H1 & H2 & _).
  split; [exact H|split; [exact H1|exact H2]].
Defined.

(** C2 (defect): on a non-200 answer the availability check falls off the
    end of its [try] block: it returns Python's None, prints nothing and
    reports no failure. *)
Theorem check_model_available_non200 (c : Z) (b : body) (rest : list http_outcome)
    (snt : list request) (ot : list msg) :
  c <> 200%Z ->
  check_model_available (mkState (Resp c b :: rest) snt ot) =
  (inr None, mkState rest (snt ++ [tags_request]) ot).
Proof.
  intros Hc; apply Z.eqb_neq in Hc; unfold check_model_available; crush; reflexivity.
Qed.

Lemma check_model_available_non200_witness :
  (503 <> 200)%Z /\
  check_model_available (mkState [Resp 503 BText] [tags_request] []) =
  (inr None, mkState [] [tags_request; tags_request] []).
Proof.
  split; [discriminate|].
  apply (check_model_available_non200 503 BText [] [tags_request] []); discriminate.
Defined.

(** C1 (the health checker): a failing liveness check does not give exit
    status 1; a status-500 answer is a failure and the process exits 0. *)
Lemma health_check_exit_counterexample :
  ~ (forall rs, result_of check_ollama_status (hd (Fail NConnect) rs) = inr false ->
                exit_code rs = 1%Z).
Proof.
  intros H; specialize (H [Resp 500 BText] eq_refl); vm_compute in H; discriminate.
Qed.

Lemma map_exn_names (items : list json) (names : list string) :
  Forall2 (fun it n => py_get it "name" (JStr "") = inr (JStr n)) items names ->
  map_exn (fun model => py_get model "name" (JStr "")) items = inr (map JStr names).
Proof. induction 1 as [|it n items names Hn _ IH]; simpl; [reflexivity|]; rewrite Hn, IH; reflexivity. Qed.

Lemma py_any_in_names (names : list string) :
  py_any (py_in MODEL_NAME) (map JStr names) = inr (existsb (contains MODEL_NAME) names).
Proof. induction names as [|n names IH]; simpl; [reflexivity|]; destruct (contains _ n); auto. Qed.

Lemma join_names_map (names : list string) : join_names (map JStr names) = inr names.
Proof.
  unfold join_names; induction names as [|n names IH]; simpl; [reflexivity|]; rewrite IH; reflexivity.
Qed.

(** C7: for an HTTP 200 tag listing whose 'models' is a list of objects with
    string names, the availability check succeeds exactly when some name
    contains MODEL_NAME; otherwise it returns False after printing that the
    model is missing, the list of available names and the pull command. *)
Theorem check_model_available_200 (j : json) (names : list string) (rest : list http_outcome)
    (snt : list request) (ot : list msg) :
  lists_models j names ->
  (fst (check_model_available (mkState (Resp 200 (BJson j) :: rest) snt ot)) = inr (Some true) <->
   Exists (fun n => contains MODEL_NAME n = true) names) /\
  (Exists (fun n => contains MODEL_NAME n = true) names ->
   check_model_available (mkState (Resp 200 (BJson j) :: rest) snt ot) =
   (inr (Some true), mkState rest (snt ++ [tags_request]) (ot ++ [MModelAvailable MODEL_NAME]))) /\
  (~ Exists (fun n => contains MODEL_NAME n = true) names ->
   check_model_available (mkState (Resp 200 (BJson j) :: rest) snt ot) =
   (inr (Some false), mkState rest (snt ++ [tags_request])
      (ot ++ [MModelNotAvailable MODEL_NAME; MAvailableModels names; MPullHint MODEL_NAME]))).
Proof.
  intros (items & Hm & Hn).
  assert (E : check_model_available (mkState (Resp 200 (BJson j) :: rest) snt ot) =
    if existsb (contains MODEL_NAME) names
    then (inr (Some true), mkState rest (snt ++ [tags_request]) (ot ++ [MModelAvailable MODEL_NAME]))
    else (inr (Some false), mkState rest (snt ++ [tags_request])
            (ot ++ [MModelNotAvailable MODEL_NAME; MAvailableModels names; MPullHint MODEL_NAME]))).
  { unfold check_model_available, try_, bind, http, lift, print, ret; cbn -[py_get].
    rewrite Hm; cbn -[py_get map_exn py_any join_names].
    rewrite (map_exn_names _ _ Hn), py_any_in_names.
    destruct (existsb _ names); cbn -[join_names]; [|rewrite join_names_map];
      simpl; rewrite <- ?app_assoc; reflexivity. }
  assert (X : existsb (contains MODEL_NAME) names = true <->
              Exists (fun n => contains MODEL_NAME n = true) names)
    by (rewrite existsb_exists, Exists_exists; reflexivity).
  rewrite E; split; [|split].
  - destruct (existsb _ names); simpl; split; intros H.
    + apply X; reflexivity.
    + reflexivity.
    + discriminate H.
    + apply X in H; discriminate H.
  - intros H; apply X in H; rewrite H; reflexivity.
  - intros H; destruct (existsb _ names) eqn:Ex; [exfalso; apply H, X; reflexivity | reflexivity].
Qed.

Lemma check_model_available_200_witness :
  fst (check_model_available
         (mkState [Resp 200 (BJson (JObj [("models", JArr [JObj [("name", JStr "llama3:8b")]])]))]
                  [] [])) = inr (Some false).
Proof.
  assert (L : lists_models (JObj [("models", JArr [JObj [("name", JStr "llama3:8b")]])])
                ["llama3:8b"]).
  { eexists; split; [reflexivity|]; repeat constructor. }
  destruct (check_model_available_200 _ _ [] [] [] L) as (_ & _ & H).
  rewrite H; [reflexivity|].
  intros Hx; inversion Hx as [? ? Hc|? ? Hx']; [discriminate Hc | inversion Hx'].
Defined.

(** C7 (as worded): a descriptor whose name is not a string makes the test
    raise TypeError, caught as a failure, even when a later descriptor's
    name contains MODEL_NAME. *)
Lemma check_model_available_counterexample :
  fst (check_model_available
         (mkState [Resp 200 (BJson (JObj [("models", JArr [JObj [("name", JInt 5)];
                                                          JObj [("name", JStr MODEL_NAME)]])]))]
                  [] [])) = inr (Some false) /\
  contains MODEL_NAME MODEL_NAME = true.
Proof. split; reflexivity. Qed.

End HealthCheckProofs.

Module EmbedderProofs.
Import Embedder.

Lemma py_lower_nonempty (c : ascii) (k : string) : py_lower (String c k) <> "".
Proof. unfold py_lower; simpl; discriminate. Qed.

(** The headers of [_headers]: the content type, and the bearer token exactly
    for a real credential. *)
Lemma _headers_cases (kvs : list (string * json)) (key : string) :
  dict_get kvs "api_key" = Some (JStr key) \/ (dict_get kvs "api_key" = None /\ key = "") ->
  (real_api_key key /\
   _headers (JObj kvs) =
     inr [("Content-Type", "application/json"); ("Authorization", ("Bearer " ++ key)%string)]) \/
  (~ real_api_key key /\ _headers (JObj kvs) = inr [("Content-Type", "application/json")]).
Proof.
  unfold _headers, py_get, real_api_key.
  intros [E|[E ->]]; rewrite E.
  2: right; split; [intros [H _]; exact (H eq_refl)|reflexivity].
  destruct key as [|c k]; [right; split; [intros [H _]; exact (H eq_refl)|reflexivity]|].
  simpl py_truthy; cbv iota.
  destruct (existsb (String.eqb (py_lower (String c k))) placeholder_keys) eqn:Ex.
  - right; split; [|reflexivity].
    intros [_ Hn]; apply existsb_exists in Ex as (x & Hx & Hxe).
    apply String.eqb_eq in Hxe; subst x.
    destruct Hx as [Hx|Hx]; [exact (py_lower_nonempty c k (eq_sym Hx)) | exact (Hn Hx)].
  - left; split; [split; [discriminate|] | reflexivity].
    intros Hin; assert (H : existsb (String.eqb (py_lower (String c k))) placeholder_keys = true)
      by (apply existsb_exists; exists (py_lower (String c k)); split;
          [right; exact Hin | apply String.eqb_refl]).
    congruence.
Qed.

(** C9: the connection test sends one GET to the base URL, stripped of
    trailing slashes, and passes for every HTTP answer whatever its status;
    it fails exactly when the request raises instead (refused connection,
    timeout or any other error). *)
Theorem test_connection_spec (alias : string) (kvs : list (string * json)) (u : string)
    (r : http_outcome) (rest : list http_outcome) (snt : list request) (ot : list msg) :
  dict_get kvs "base_url" = Some (JStr u) ->
  fst (test_connection alias (JObj kvs) (mkState (r :: rest) snt ot)) =
    inr (match r with Resp _ _ => true | Fail _ => false end) /\
  sent (snd (test_connection alias (JObj kvs) (mkState (r :: rest) snt ot))) =
    snt ++ [mkRequest GET (rstrip_slash u) [] None 10].
Proof.
  intros Hu; unfold test_connection, base_url_of; rewrite Hu.
  set (v := rstrip_slash u); clearbody v.
  destruct r as [c b|[]]; crush; split; reflexivity.
Qed.

Lemma test_connection_spec_witness :
  fst (test_connection "nomic" (JObj [("base_url", JStr "http://localhost:11434/")])
         (mkState [Resp 404 BText] [] [])) = inr true /\
  fst (test_connection "nomic" (JObj [("base_url", JStr "http://localhost:11434/")])
         (mkState [Fail NConnectTimeout] [] [])) = inr false.
Proof.
  split.
  - exact (proj1 (test_connection_spec "nomic" [("base_url", JStr "http://localhost:11434/")]
                    "http://localhost:11434/" (Resp 404 BText) [] [] [] eq_refl)).
  - exact (proj1 (test_connection_spec "nomic" [("base_url", JStr "http://localhost:11434/")]
                    "http://localhost:11434/" (Fail NConnectTimeout) [] [] [] eq_refl)).
Defined.

(** C10: the embedding test sends one POST to [base_url/v1/embeddings]; its
    headers carry [Authorization: Bearer <api_key>] exactly when the
    configured key is a real credential (non-empty and, compared
    case-insensitively, not "none", "ollama" or "no_key_required"), and
    otherwise only the content type.  A missing api_key reads as "". *)
Theorem embedding_request_auth (alias : string) (kvs : list (string * json)) (u key : string)
    (sentence : string) (i : list http_outcome) (snt : list request) (ot : list msg) :
  dict_get kvs "base_url" = Some (JStr u) ->
  dict_get kvs "api_key" = Some (JStr key) \/ (dict_get kvs "api_key" = None /\ key = "") ->
  exists rq,
    sent (snd (test_embedding alias (JObj kvs) sentence (mkState i snt ot))) = snt ++ [rq] /\
    rq_meth rq = POST /\ rq_url rq = (rstrip_slash u ++ "/v1/embeddings")%string /\
    ((real_api_key key /\
      rq_headers rq = [("Content-Type", "application/json");
                       ("Authorization", ("Bearer " ++ key)%string)]) \/
     (~ real_api_key key /\ rq_headers rq = [("Content-Type", "application/json")])).
Proof.
  intros Hu Hk.
  destruct (_headers_cases kvs key Hk) as [[Hr Eh]|[Hr Eh]];
    unfold test_embedding, base_url_of, parse_payload; rewrite Hu, Eh;
    set (v := rstrip_slash u); clearbody v;
    destruct i as [|[c b|e] rest]; crush;
    eexists; (split; [reflexivity|]); simpl; repeat split; auto.
Qed.

Lemma embedding_request_auth_witness :
  exists rq,
    sent (snd (test_embedding "nomic"
                 (JObj [("base_url", JStr "http://localhost:11434"); ("api_key", JStr "sk-1")])
                 TEST_SENTENCE (mkState [] [] []))) = [rq] /\
    rq_meth rq = POST /\ rq_url rq = "http://localhost:11434/v1/embeddings" /\
    ((real_api_key "sk-1" /\
      rq_headers rq = [("Content-Type", "application/json"); ("Authorization", "Bearer sk-1")]) \/
     (~ real_api_key "sk-1" /\ rq_headers rq = [("Content-Type", "application/json")])).
Proof.
  exact (embedding_request_auth "nomic"
           [("base_url", JStr "http://localhost:11434"); ("api_key", JStr "sk-1")]
           "http://localhost:11434" "sk-1" TEST_SENTENCE [] [] [] eq_refl (or_introl eq_refl)).
Defined.

Ltac numeric_split :=
  match goal with
  | |- context [forallb is_numeric (firstn 5 ?l)] => destruct (forallb is_numeric (firstn 5 l)) eqn:?
  end.

Lemma test_embedding_true_inv (alias : string) (kvs : list (string * json)) (u : string)
    (hs : list (string * string)) (sentence : string) (r : http_outcome)
    (rest : list http_outcome) (snt : list request) (ot : list msg) :
  dict_get kvs "base_url" = Some (JStr u) -> _headers (JObj kvs) = inr hs ->
  fst (test_embedding alias (JObj kvs) sentence (mkState (r :: rest) snt ot)) = inr true ->
  exists c payload vs, r = Resp c (BJson payload) /\ (200 <= c < 300)%Z /\
    embedding_accepted payload vs.
Proof.
  intros Hu Eh; unfold test_embedding, base_url_of, parse_payload; rewrite Hu, Eh.
  set (w := rstrip_slash u); clearbody w.
  destruct r as [c b|e]; crush_with ltac:(idtac; numeric_split).
  all: intros _; do 3 eexists; split; [reflexivity|];
    repeat match goal with
           | H : (_ <=? _)%Z = true |- _ => apply Z.leb_le in H
           | H : (_ <? _)%Z = true |- _ => apply Z.ltb_lt in H
           end;
    split; [lia|];
    do 3 eexists; split; [reflexivity|]; split; [eassumption|]; split; [eassumption|];
    split; [discriminate|]; apply Forall_forall, forallb_forall; assumption.
Qed.

Lemma test_embedding_pass (alias : string) (kvs : list (string * json)) (u : string)
    (hs : list (string * string)) (sentence : string) (c : Z) (payload : json)
    (vs : list json) (rest : list http_outcome) (snt : list request) (ot : list msg) :
  dict_get kvs "base_url" = Some (JStr u) -> _headers (JObj kvs) = inr hs ->
  (200 <= c < 300)%Z -> embedding_accepted payload vs ->
  exists ls s',
    test_embedding alias (JObj kvs) sentence (mkState (Resp c (BJson payload) :: rest) snt ot) =
      (inr true, s') /\
    out s' = ot ++ ls ++ [MEmbDim (length vs); MFirstFive (firstn 5 vs); MPass].
Proof.
  intros Hu Eh Hc (pk & dk & items & -> & Hd & He & Hne & Hf).
  assert (H1 : (200 <=? c)%Z = true) by (apply Z.leb_le; lia).
  assert (H2 : (c <? 300)%Z = true) by (apply Z.ltb_lt; lia).
  assert (H3 : forallb is_numeric (firstn 5 vs) = true)
    by (apply forallb_forall, Forall_forall, Hf).
  destruct vs as [|v0 vs]; [contradiction|].
  unfold test_embedding, base_url_of, parse_payload; rewrite Hu, Eh.
  set (w := rstrip_slash u); clearbody w.
  crush_with ltac:(try rewrite H1 in *; try rewrite H2 in *; try rewrite Hd in *;
                   try rewrite He in *; try rewrite H3 in *).
  all: eexists [_; _; _], _; split; [reflexivity|]; simpl; rewrite <- !app_assoc; reflexivity.
Qed.

(** C3: with a configuration whose base_url is a string and whose headers
    can be built, the embedding test passes exactly when the answer is a
    2xx JSON object whose 'data' is a non-empty list, whose first item is an
    object holding a non-empty 'embedding' list with numbers as its first
    five entries; it then reports the length and the first five values.
    The vector [0.1, 0.2, 0.3] passes with dimension 3; an empty 'data' list
    gives False without raising. *)
Theorem test_embedding_spec (alias : string) (kvs : list (string * json)) (u : string)
    (hs : list (string * string)) (sentence : string) (r : http_outcome)
    (rest : list http_outcome) (snt : list request) (ot : list msg) :
  dict_get kvs "base_url" = Some (JStr u) -> _headers (JObj kvs) = inr hs ->
  (fst (test_embedding alias (JObj kvs) sentence (mkState (r :: rest) snt ot)) = inr true <->
   exists c payload vs, r = Resp c (BJson payload) /\ (200 <= c < 300)%Z /\
     embedding_accepted payload vs) /\
  (forall c payload vs, r = Resp c (BJson payload) -> (200 <= c < 300)%Z ->
     embedding_accepted payload vs ->
     exists ls, out (snd (test_embedding alias (JObj kvs) sentence (mkState (r :: rest) snt ot))) =
       ot ++ ls ++ [MEmbDim (length vs); MFirstFive (firstn 5 vs); MPass]) /\
  (forall c, (200 <= c < 300)%Z ->
     r = Resp c (BJson (JObj [("data", JArr [JObj [("embedding",
                   JArr [JFloat (1#10); JFloat (2#10); JFloat (3#10)])]])])) ->
     fst (test_embedding alias (JObj kvs) sentence (mkState (r :: rest) snt ot)) = inr true /\
     exists ls, out (snd (test_embedding alias (JObj kvs) sentence (mkState (r :: rest) snt ot))) =
       ot ++ ls ++ [MEmbDim 3; MFirstFive [JFloat (1#10); JFloat (2#10); JFloat (3#10)]; MPass]) /\
  (forall c, r = Resp c (BJson (JObj [("data", JArr [])])) ->
     fst (test_embedding alias (JObj kvs) sentence (mkState (r :: rest) snt ot)) = inr false).
Proof.
  intros Hu Eh.
  assert (P : forall c payload vs, r = Resp c (BJson payload) -> (200 <= c < 300)%Z ->
     embedding_accepted payload vs ->
     fst (test_embedding alias (JObj kvs) sentence (mkState (r :: rest) snt ot)) = inr true /\
     exists ls, out (snd (test_embedding alias (JObj kvs) sentence (mkState (r :: rest) snt ot))) =
       ot ++ ls ++ [MEmbDim (length vs); MFirstFive (firstn 5 vs); MPass]).
  { intros c payload vs -> Hc Ha.
    destruct (test_embedding_pass alias kvs u hs sentence c payload vs rest snt ot Hu Eh Hc Ha)
      as (ls & s' & E & O).
    rewrite E; split; [reflexivity | exists ls; exact O]. }
  split; [split|split; [|split]].
  - apply test_embedding_true_inv with (u := u) (hs := hs); assumption.
  - intros (c & payload & vs & Er & Hc & Ha); exact (proj1 (P c payload vs Er Hc Ha)).
  - intros c payload vs Er Hc Ha; exact (proj2 (P c payload vs Er Hc Ha)).
  - intros c Hc Er; apply (P c _ [JFloat (1#10); JFloat (2#10); JFloat (3#10)] Er Hc).
    do 3 eexists; split; [reflexivity|]; split; [reflexivity|]; split; [reflexivity|].
    split; [discriminate|]; repeat constructor.
  - intros c ->; unfold test_embedding, base_url_of, parse_payload; rewrite Hu, Eh.
    set (w := rstrip_slash u); clearbody w; crush; reflexivity.
Qed.

Lemma test_embedding_spec_witness :
  fst (test_embedding "nomic" (JObj [("base_url", JStr "http://localhost:11434")]) TEST_SENTENCE
         (mkState [Resp 200 (BJson (JObj [("data", JArr [])]))] [] [])) = inr false.
Proof.
  exact (proj2 (proj2 (proj2 (test_embedding_spec "nomic"
           [("base_url", JStr "http://localhost:11434")] "http://localhost:11434"
           [("Content-Type", "application/json")] TEST_SENTENCE
           (Resp 200 (BJson (JObj [("data", JArr [])]))) [] [] [] eq_refl eq_refl)))
           200%Z eq_refl).
Defined.

(** C3 (as worded): the test does not check every item of 'data'; an answer
    whose second item has no 'embedding' at all passes. *)
Lemma test_embedding_counterexample :
  ~ (forall c payload,
       fst (test_embedding "nomic" (JObj [("base_url", JStr "http://localhost:11434")])
              TEST_SENTENCE (mkState [Resp c (BJson payload)] [] [])) = inr true ->
       claimed_embedding_shape payload).
Proof.
  intros H.
  specialize (H 200%Z (JObj [("data", JArr [JObj [("embedding", JArr [JFloat (1#10)])];
                                            JObj [("text", JStr "unused")]])]) eq_refl).
  destruct H as (kvs & items & E & Hd & _ & Hf).
  injection E as <-; simpl in Hd; injection Hd as <-.
  inversion Hf as [|? ? _ Hf2]; subst.
  inversion Hf2 as [|? ? (dkvs & vs & E2 & He & _) _]; subst.
  injection E2 as <-; discriminate He.
Qed.

Lemma find_ctx_key_map (mkvs : list (string * json)) :
  find_ctx_key (map (fun kv => JStr (fst kv)) mkvs) =
  inr (option_map fst (find ctx_length_entry mkvs)).
Proof.
  induction mkvs as [|[k v] mkvs IH]; [reflexivity|].
  simpl; unfold ctx_length_entry; simpl; destruct (ends_with _ k); [reflexivity|exact IH].
Qed.

Lemma find_ctx_dict_get (l : list (string * json)) (k : string) (v : json) :
  find ctx_length_entry l = Some (k, v) -> dict_get l k = Some v.
Proof.
  induction l as [|[k' v'] l IH]; simpl; [discriminate|].
  unfold ctx_length_entry at 1; simpl.
  destruct (ends_with _ k') eqn:Ek.
  - intros H; injection H as -> ->; rewrite String.eqb_refl; reflexivity.
  - intros H; destruct (String.eqb k k') eqn:Ekk; [|exact (IH H)].
    apply String.eqb_eq in Ekk; subst k'.
    apply find_some in H as [_ H]; unfold ctx_length_entry in H; simpl in H; congruence.
Qed.

Ltac ctx_hook :=
  try rewrite find_ctx_key_map in *;
  try match goal with
      | H : find ctx_length_entry ?l = Some (?k, ?v) |- context [dict_get ?l ?k] =>
          rewrite (find_ctx_dict_get l k v H)
      end.

Lemma test_context_window_true_inv (alias : string) (kvs : list (string * json)) (u : string)
    (r : http_outcome) (rest : list http_outcome) (snt : list request) (ot : list msg) :
  dict_get kvs "base_url" = Some (JStr u) ->
  fst (test_context_window alias (JObj kvs) (mkState (r :: rest) snt ot)) = inr true ->
  exists c pkvs mkvs k v, r = Resp c (BJson (JObj pkvs)) /\ (200 <= c < 300)%Z /\
    dict_get pkvs "modelinfo" = Some (JObj mkvs) /\ find ctx_length_entry mkvs = Some (k, v) /\
    is_numeric v = true.
Proof.
  intros Hu; unfold test_context_window, post_checked, parse_payload, base_url_of, py_index;
    rewrite Hu.
  set (w := rstrip_slash u); clearbody w.
  destruct r as [c b|e]; crush_with ltac:(idtac; ctx_hook).
  all: intros _;
    match goal with
    | H : option_map fst (find ctx_length_entry ?l) = Some ?k |- _ =>
        let k' := fresh "k" in let v' := fresh "v" in let Ef := fresh "Ef" in
        destruct (find ctx_length_entry l) as [[k' v']|] eqn:Ef; [|discriminate H];
        injection H as <-; rewrite (find_ctx_dict_get l k' v' Ef) in *
    end;
    match goal with H : Some _ = Some _ |- _ => injection H as -> end;
    match goal with H : (_ && _)%bool = true |- _ =>
      apply andb_prop in H as [H1 H2]; apply Z.leb_le in H1; apply Z.ltb_lt in H2 end;
    do 5 eexists; split; [reflexivity|]; split; [lia|];
    split; [eassumption|]; split; [eassumption|]; reflexivity.
Qed.

Lemma test_context_window_found (alias : string) (kvs : list (string * json)) (u : string)
    (c : Z) (pkvs mkvs : list (string * json)) (k : string) (v : json)
    (rest : list http_outcome) (snt : list request) (ot : list msg) :
  dict_get kvs "base_url" = Some (JStr u) -> (200 <= c < 300)%Z ->
  dict_get pkvs "modelinfo" = Some (JObj mkvs) -> find ctx_length_entry mkvs = Some (k, v) ->
  (is_numeric v = true ->
   fst (test_context_window alias (JObj kvs) (mkState (Resp c (BJson (JObj pkvs)) :: rest) snt ot))
     = inr true /\
   exists ls,
     out (snd (test_context_window alias (JObj kvs)
                 (mkState (Resp c (BJson (JObj pkvs)) :: rest) snt ot))) =
     ot ++ ls ++ [MCtxKey k; MMaxCtx v; MPass]) /\
  (is_numeric v = false ->
   exists e, fst (test_context_window alias (JObj kvs)
                    (mkState (Resp c (BJson (JObj pkvs)) :: rest) snt ot)) = inl e /\
             is_Exception e = true).
Proof.
  intros Hu Hc Hm Hf.
  assert (H1 : (200 <=? c)%Z = true) by (apply Z.leb_le; lia).
  assert (H2 : (c <? 300)%Z = true) by (apply Z.ltb_lt; lia).
  pose proof (find_ctx_dict_get _ _ _ Hf) as Hg.
  destruct mkvs as [|kv0 mkvs']; [discriminate Hf|].
  remember (kv0 :: mkvs') as mkvs eqn:Emkvs.
  assert (Ht : py_truthy (JObj mkvs) = true) by (subst mkvs; reflexivity); simpl in Ht.
  unfold test_context_window, post_checked, parse_payload, base_url_of, py_index; rewrite Hu.
  set (w := rstrip_slash u); clearbody w.
  crush_with ltac:(try rewrite H1 in *; try rewrite H2 in *; try rewrite Hm in *;
                   try rewrite find_ctx_key_map in *; try rewrite Hf in *; try rewrite Hg in *;
                   try rewrite Ht in *).
  all: split; intros Hn; try discriminate Hn;
    first [ split; [reflexivity|]; eexists [_; _]; simpl; rewrite <- !app_assoc; reflexivity
          | eexists; split; reflexivity ].
Qed.

Lemma test_context_window_no_key (alias : string) (kvs : list (string * json)) (u : string)
    (c : Z) (pkvs mkvs : list (string * json)) (rest : list http_outcome) (snt : list request)
    (ot : list msg) :
  dict_get kvs "base_url" = Some (JStr u) -> (200 <= c < 300)%Z ->
  dict_get pkvs "modelinfo" = Some (JObj mkvs) -> find ctx_length_entry mkvs = None ->
  fst (test_context_window alias (JObj kvs) (mkState (Resp c (BJson (JObj pkvs)) :: rest) snt ot))
    = inr false.
Proof.
  intros Hu Hc Hm Hf.
  assert (H1 : (200 <=? c)%Z = true) by (apply Z.leb_le; lia).
  assert (H2 : (c <? 300)%Z = true) by (apply Z.ltb_lt; lia).
  unfold test_context_window, post_checked, parse_payload, base_url_of; rewrite Hu.
  set (w := rstrip_slash u); clearbody w.
  destruct mkvs as [|kv0 mkvs'].
  - crush_with ltac:(try rewrite H1 in *; try rewrite H2 in *; try rewrite Hm in *);
      reflexivity.
  - remember (kv0 :: mkvs') as mkvs eqn:Emkvs.
    assert (Ht : py_truthy (JObj mkvs) = true) by (subst mkvs; reflexivity); simpl in Ht.
    crush_with ltac:(try rewrite H1 in *; try rewrite H2 in *; try rewrite Hm in *;
                     try rewrite find_ctx_key_map in *; try rewrite Hf in *;
                     try rewrite Ht in *); reflexivity.
Qed.

(** C8: with a configuration whose base_url is a string, the context-window
    test passes exactly when the answer is a 2xx JSON object whose
    'modelinfo' is an object in which the first key ending in
    '.context_length' holds a number; it then reports that key and value.
    Without such a key it returns False; when the first such key holds
    anything but a number the formatting raises and the test does not
    return.  modelinfo {"llama.context_length": 8192} passes reporting 8192;
    modelinfo {} gives False. *)
Theorem test_context_window_spec (alias : string) (kvs : list (string * json)) (u : string)
    (r : http_outcome) (rest : list http_outcome) (snt : list request) (ot : list msg) :
  dict_get kvs "base_url" = Some (JStr u) ->
  (fst (test_context_window alias (JObj kvs) (mkState (r :: rest) snt ot)) = inr true <->
   exists c pkvs mkvs k v, r = Resp c (BJson (JObj pkvs)) /\ (200 <= c < 300)%Z /\
     dict_get pkvs "modelinfo" = Some (JObj mkvs) /\ find ctx_length_entry mkvs = Some (k, v) /\
     is_numeric v = true) /\
  (forall c pkvs mkvs, r = Resp c (BJson (JObj pkvs)) -> (200 <= c < 300)%Z ->
     dict_get pkvs "modelinfo" = Some (JObj mkvs) ->
     (find ctx_length_entry mkvs = None ->
        fst (test_context_window alias (JObj kvs) (mkState (r :: rest) snt ot)) = inr false) /\
     (forall k v, find ctx_length_entry mkvs = Some (k, v) -> is_numeric v = true ->
        exists ls, out (snd (test_context_window alias (JObj kvs) (mkState (r :: rest) snt ot))) =
          ot ++ ls ++ [MCtxKey k; MMaxCtx v; MPass]) /\
     (forall k v, find ctx_length_entry mkvs = Some (k, v) -> is_numeric v = false ->
        exists e, fst (test_context_window alias (JObj kvs) (mkState (r :: rest) snt ot)) = inl e /\
          is_Exception e = true)) /\
  (forall c, (200 <= c < 300)%Z ->
     r = Resp c (BJson (JObj [("modelinfo", JObj [("llama.context_length", JInt 8192)])])) ->
     fst (test_context_window alias (JObj kvs) (mkState (r :: rest) snt ot)) = inr true /\
     exists ls, out (snd (test_context_window alias (JObj kvs) (mkState (r :: rest) snt ot))) =
       ot ++ ls ++ [MCtxKey "llama.context_length"; MMaxCtx (JInt 8192); MPass]) /\
  (forall c, r = Resp c (BJson (JObj [("modelinfo", JObj [])])) ->
     fst (test_context_window alias (JObj kvs) (mkState (r :: rest) snt ot)) = inr false).
Proof.
  intros Hu; split; [split|split; [|split]].
  - apply test_context_window_true_inv with (u := u); exact Hu.
  - intros (c & pkvs & mkvs & k & v & -> & Hc & Hm & Hf & Hn).
    exact (proj1 (proj1 (test_context_window_found alias kvs u c pkvs mkvs k v rest snt ot
                           Hu Hc Hm Hf) Hn)).
  - intros c pkvs mkvs -> Hc Hm; split; [|split].
    + exact (test_context_window_no_key alias kvs u c pkvs mkvs rest snt ot Hu Hc Hm).
    + intros k v Hf Hn.
      exact (proj2 (proj1 (test_context_window_found alias kvs u c pkvs mkvs k v rest snt ot
                             Hu Hc Hm Hf) Hn)).
    + intros k v Hf Hn.
      exact (proj2 (test_context_window_found alias kvs u c pkvs mkvs k v rest snt ot
                      Hu Hc Hm Hf) Hn).
  - intros c Hc ->.
    exact (proj1 (test_context_window_found alias kvs u c
                    [("modelinfo", JObj [("llama.context_length", JInt 8192)])]
                    [("llama.context_length", JInt 8192)] "llama.context_length" (JInt 8192)
                    rest snt ot Hu Hc eq_refl eq_refl) eq_refl).
  - intros c ->; unfold test_context_window, post_checked, parse_payload, base_url_of; rewrite Hu.
    set (w := rstrip_slash u); clearbody w; crush; reflexivity.
Qed.

Lemma test_context_window_spec_witness :
  fst (test_context_window "nomic" (JObj [("base_url", JStr "http://localhost:11434")])
         (mkState [Resp 200 (BJson (JObj [("modelinfo", JObj [])]))] [] [])) = inr false.
Proof.
  exact (proj2 (proj2 (proj2 (test_context_window_spec "nomic"
           [("base_url", JStr "http://localhost:11434")] "http://localhost:11434"
           (Resp 200 (BJson (JObj [("modelinfo", JObj [])]))) [] [] [] eq_refl)))
           200%Z eq_refl).
Defined.

(** C8 (as worded): a '.context_length' key is not enough; when it holds a
    string the test raises ValueError while formatting it instead of
    passing. *)
Lemma test_context_window_counterexample :
  ~ (forall c pkvs mkvs, (200 <= c < 300)%Z -> dict_get pkvs "modelinfo" = Some (JObj mkvs) ->
       (exists kv, In kv mkvs /\ ctx_length_entry kv = true) ->
       fst (test_context_window "nomic" (JObj [("base_url", JStr "http://localhost:11434")])
              (mkState [Resp c (BJson (JObj pkvs))] [] [])) = inr true).
Proof.
  intros H.
  assert (Hc : (200 <= 200 < 300)%Z) by lia.
  specialize (H 200%Z [("modelinfo", JObj [("llama.context_length", JStr "8192")])]
                [("llama.context_length", JStr "8192")] Hc eq_refl
                (ex_intro _ _ (conj (or_introl eq_refl) eq_refl))).
  vm_compute in H; discriminate H.
Qed.

Lemma is_embedder_kind_true (v : json) : is_embedder_kind v = true -> v = JStr "embedder".
Proof. destruct v; try discriminate; intros H; apply String.eqb_eq in H; subst; reflexivity. Qed.

Lemma py_get_exn (o : json) (k : string) (d : json) (e : exn) :
  py_get o k d = inl e -> e = XAttribute.
Proof. destruct o; simpl; try (intros H; injection H as <-; reflexivity); discriminate. Qed.

Lemma find_embedder_none (items : list (string * json)) (s : state) :
  (forall alias cfg, In (alias, cfg) items -> py_get cfg "kind" JNull <> inr (JStr "embedder")) ->
  find_embedder items s =
    (inl (XSystemExit 1), mkState (inputs s) (sent s) (out s ++ [MCfgNoEmbedder])) \/
  exists e, find_embedder items s = (inl e, s) /\ is_Exception e = true.
Proof.
  revert s; induction items as [|[alias cfg] items IH]; intros s H; [left; reflexivity|].
  simpl; unfold bind, lift.
  destruct (py_get cfg "kind" JNull) as [e|kind] eqn:Ek.
  - right; exists e; split; [reflexivity|]; apply py_get_exn in Ek; subst; reflexivity.
  - destruct (is_embedder_kind kind) eqn:Ei.
    + apply is_embedder_kind_true in Ei; subst kind.
      exfalso; exact (H alias cfg (or_introl eq_refl) Ek).
    + apply IH; intros a c Hin; apply (H a c); right; exact Hin.
Qed.

Lemma load_unusable (f : config_file) (s : state) :
  config_unusable f ->
  (exists m, cfg_diagnostic m /\
     _load_embedder_cfg f s = (inl (XSystemExit 1), mkState (inputs s) (sent s) (out s ++ [m]))) \/
  exists e, _load_embedder_cfg f s = (inl e, s) /\ is_Exception e = true.
Proof.
  intros [->|[->|[->|[->|(j & -> & Hj)]]]].
  - left; exists MCfgNotFound; split; [left; reflexivity|reflexivity].
  - right; exists XOSError; split; reflexivity.
  - right; exists XUnicodeDecode; split; reflexivity.
  - left; exists MCfgParse; split; [right; left; reflexivity|reflexivity].
  - unfold _load_embedder_cfg, try_, bind at 1, read_models, ret.
    unfold bind at 1, lift, py_items.
    destruct j as [| | | | | |kvs]; try (right; eexists; split; reflexivity).
    destruct (find_embedder_none kvs s) as [E|E].
    + intros a c Hin Hk; apply Hj; exists kvs, a, c; auto.
    + left; exists MCfgNoEmbedder; split; [right; right; reflexivity|exact E].
    + right; exact E.
Qed.

(** C4: a missing, unreadable or undecodable configuration file, or one
    without an entry of kind "embedder", ends the run with exit status 1
    before any request: either after printing one [ERROR] line and calling
    sys.exit(1), or on an uncaught exception (Python then prints its
    traceback) with nothing printed. *)
Theorem config_failure_exit (f : config_file) (rs : list http_outcome) :
  config_unusable f ->
  exit_code f rs = 1%Z /\ sent (snd (run f rs)) = [] /\
  ((fst (run f rs) = inl (XSystemExit 1) /\
    exists m, out (snd (run f rs)) = [m] /\ cfg_diagnostic m) \/
   (exists e, fst (run f rs) = inl e /\ is_Exception e = true /\ out (snd (run f rs)) = [])).
Proof.
  intros H; unfold exit_code, run, main; unfold bind.
  destruct (load_unusable f (init rs) H) as [(m & Hm & E)|(e & E & He)]; rewrite E; simpl.
  - split; [reflexivity|split; [reflexivity|]].
    left; split; [reflexivity|exists m; split; [reflexivity|exact Hm]].
  - destruct e; try discriminate He;
      (split; [reflexivity|split; [reflexivity|right; eexists; repeat split]]).
Qed.

Lemma config_failure_exit_witness :
  exit_code (CfgText (Some (JObj [("chat", JObj [("kind", JStr "llm")])]))) [] = 1%Z.
Proof.
  assert (H : config_unusable (CfgText (Some (JObj [("chat", JObj [("kind", JStr "llm")])])))).
  { right; right; right; right; eexists; split; [reflexivity|].
    intros (kvs & a & c & E & Hin & Hk); injection E as <-.
    destruct Hin as [Hin|[]]; injection Hin as <- <-; discriminate Hk. }
  exact (proj1 (config_failure_exit _ [] H)).
Defined.

Lemma tame_find_embedder (items : list (string * json)) :
  tame is_results (fun c => c = 1%Z) (find_embedder items).
Proof. induction items as [|[alias cfg] items IH]; simpl; tame_tac; exact IH. Qed.

Lemma tame_load (f : config_file) : tame is_results (fun c => c = 1%Z) (_load_embedder_cfg f).
Proof.
  unfold _load_embedder_cfg, read_models; tame_tac; try apply tame_find_embedder;
    destruct f as [| | |[]]; tame_tac.
Qed.

Lemma tame_test_connection (alias : string) (cfg : json) :
  tame is_results (fun c => c = 1%Z) (test_connection alias cfg).
Proof. unfold test_connection; tame_tac. Qed.

Lemma tame_test_embedding (alias : string) (cfg : json) (sentence : string) :
  tame is_results (fun c => c = 1%Z) (test_embedding alias cfg sentence).
Proof. unfold test_embedding, parse_payload; cbv zeta; tame_tac. Qed.

Lemma tame_test_context_window (alias : string) (cfg : json) :
  tame is_results (fun c => c = 1%Z) (test_context_window alias cfg).
Proof. unfold test_context_window, post_checked, parse_payload; cbv zeta; tame_tac. Qed.

Lemma exit_step {A} (m : M A) (k : A -> M unit) (s : state) :
  tame is_results (fun c => c = 1%Z) m ->
  Forall (fun l => is_results l = false) (out s) ->
  (forall a s', Forall (fun l => is_results l = false) (out s') -> exit_summary (k a s')) ->
  exit_summary (bind m k s).
Proof.
  intros T F K; destruct (T s) as (ls & O & Fl & X); unfold bind.
  destruct (m s) as [[e|a] s'] eqn:E; simpl in *.
  - assert (Fo : Forall (fun l => is_results l = false) (out s')) by (rewrite O; apply Forall_app; auto).
    assert (He : exit_status (A := unit) (inl e) = 1%Z)
      by (destruct e; try reflexivity; apply X; reflexivity).
    unfold exit_summary; cbn [fst snd]; rewrite He; split; [split; [discriminate|]|right; reflexivity].
    intros Hin; rewrite Forall_forall in Fo; specialize (Fo _ Hin); discriminate Fo.
  - apply K; rewrite O; apply Forall_app; auto.
Qed.

Lemma embedder_exit (f : config_file) (rs : list http_outcome) : exit_summary (run f rs).
Proof.
  unfold run, main.
  apply exit_step; [apply tame_load | constructor | intros [alias cfg] s F].
  repeat (apply exit_step;
          [ first [ apply tame_test_connection | apply tame_test_embedding
                  | apply tame_test_context_window | solve [tame_tac] ]
          | assumption | intros ? ? ? ]).
  match goal with |- context [count_true [?a; ?b; ?c]] => destruct a, b, c end;
    unfold bind, print, exit_summary; simpl; rewrite in_app_iff; simpl;
    ((split; [split|]);
    [ let H := fresh "H" in intros H; first [right; left; reflexivity | discriminate H]
    | let Hin := fresh "Hin" in intros [Hin|[Hin|[]]];
      [ match goal with F : Forall _ _ |- _ =>
          rewrite Forall_forall in F; specialize (F _ Hin); discriminate F end
      | first [reflexivity | discriminate Hin] ]
    | first [left; reflexivity | right; reflexivity] ]).
Qed.

(** C1: the exit status.  check_ollama_config.py never calls sys.exit: its
    process exits with 0 whatever its checks find, and with 1 only when the
    liveness probe raises an error that is neither a connection error nor a
    timeout.  test_embedder.py exits with 0 exactly when its summary line
    reports 3/3 tests passed, and with 1 otherwise (configuration failures
    included). *)
Theorem exit_status_spec :
  (forall rs, HealthCheck.exit_code rs =
                match rs with Fail NOther :: _ => 1%Z | _ => 0%Z end) /\
  (forall f rs,
     (exit_code f rs = 0%Z <-> In (MResults 3 3) (out (snd (run f rs)))) /\
     (exit_code f rs = 0%Z \/ exit_code f rs = 1%Z)).
Proof.
  split; [exact HealthCheckProofs.health_check_exit_code|].
  intros f rs; exact (embedder_exit f rs).
Qed.

End EmbedderProofs.

Module HealthCheckExtra.
Import HealthCheck.

Lemma check_ollama_status_sends : sends_one check_ollama_status tags_request.
Proof. intros [|[c b|e] rest] snt ot; unfold check_ollama_status; crush; reflexivity. Qed.

Lemma check_model_available_sends : sends_one check_model_available tags_request.
Proof. intros [|[c b|e] rest] snt ot; unfold check_model_available; crush; reflexivity. Qed.

Lemma print_model_info_sends : sends_one print_model_info show_request.
Proof.
  intros [|[c b|e] rest] snt ot; unfold print_model_info, print_detail; crush; reflexivity.
Qed.

Lemma test_model_inference_sends : sends_one test_model_inference generate_request.
Proof. intros [|[c b|e] rest] snt ot; unfold test_model_inference; crush; reflexivity. Qed.

(** X1: the liveness probe on each kind of answer.  A 200 prints that the
    server runs; another status prints it; a refused connection, a dropped
    connection and a connect timeout (which requests raises as a
    ConnectionError, the first [except] clause) print "Could not connect";
    only a read timeout prints "timed out"; any other library error
    escapes.  Each case issues the one GET /api/tags. *)
Theorem check_ollama_status_outcomes (rest : list http_outcome) (snt : list request)
    (ot : list msg) :
  (forall b, check_ollama_status (mkState (Resp 200 b :: rest) snt ot) =
     (inr true, mkState rest (snt ++ [tags_request]) (ot ++ [MServerRunning]))) /\
  (forall c b, c <> 200%Z -> check_ollama_status (mkState (Resp c b :: rest) snt ot) =
     (inr false, mkState rest (snt ++ [tags_request]) (ot ++ [MServerStatus c]))) /\
  (forall e, e = NConnect \/ e = NConnectTimeout \/ e = NReadError ->
     check_ollama_status (mkState (Fail e :: rest) snt ot) =
     (inr false, mkState rest (snt ++ [tags_request]) (ot ++ [MServerNoConnect]))) /\
  check_ollama_status (mkState (Fail NReadTimeout :: rest) snt ot) =
    (inr false, mkState rest (snt ++ [tags_request]) (ot ++ [MServerTimeout])) /\
  check_ollama_status (mkState (Fail NOther :: rest) snt ot) =
    (inl (XNet NOther), mkState rest (snt ++ [tags_request]) ot).
Proof.
  unfold check_ollama_status; split; [|split; [|split; [|split]]].
  - intros b; crush; reflexivity.
  - intros c b Hc; apply Z.eqb_neq in Hc; crush; reflexivity.
  - intros e [->|[->| ->]]; crush; reflexivity.
  - crush; reflexivity.
  - crush; reflexivity.
Qed.

(** X2: the availability check catches every failure of its request and of
    the JSON it reads: a transport error, a body that is not JSON, or JSON
    that is not an object each print one error line and give False. *)
Theorem check_model_available_errors (rest : list http_outcome) (snt : list request)
    (ot : list msg) :
  (forall e, check_model_available (mkState (Fail e :: rest) snt ot) =
     (inr (Some false), mkState rest (snt ++ [tags_request]) (ot ++ [MAvailError (XNet e)]))) /\
  check_model_available (mkState (Resp 200 BText :: rest) snt ot) =
    (inr (Some false), mkState rest (snt ++ [tags_request]) (ot ++ [MAvailError XJSONDecode])) /\
  (forall j, (forall kvs, j <> JObj kvs) ->
     check_model_available (mkState (Resp 200 (BJson j) :: rest) snt ot) =
     (inr (Some false), mkState rest (snt ++ [tags_request]) (ot ++ [MAvailError XAttribute]))).
Proof.
  unfold check_model_available; split; [|split].
  - intros e; crush; reflexivity.
  - crush; reflexivity.
  - intros j Hj; destruct j as [| | | | | |kvs]; [..|exfalso; exact (Hj kvs eq_refl)];
      crush; reflexivity.
Qed.

(** X3: the inference test passes exactly on an HTTP 200 JSON object whose
    'response' is a string or absent; it then prints that string stripped
    of surrounding white space. *)
Theorem test_model_inference_pass (r : http_outcome) (rest : list http_outcome)
    (snt : list request) (ot : list msg) :
  (fst (test_model_inference (mkState (r :: rest) snt ot)) = inr true <->
   exists kvs v, r = Resp 200 (BJson (JObj kvs)) /\
     (dict_get kvs "response" = Some (JStr v) \/ (dict_get kvs "response" = None /\ v = ""))) /\
  (forall kvs v, r = Resp 200 (BJson (JObj kvs)) -> dict_get kvs "response" = Some (JStr v) ->
     exists o, py_strip (JStr v) = inr o /\
       test_model_inference (mkState (r :: rest) snt ot) =
       (inr true, mkState rest (snt ++ [generate_request])
                    (ot ++ [MTestingInference MODEL_NAME; MModelResponse o]))).
Proof.
  split; [split|].
  - destruct r as [c b|e]; unfold test_model_inference; crush; intros _;
      repeat match goal with H : (_ =? _)%Z = true |- _ => apply Z.eqb_eq in H; subst end;
      do 2 eexists; (split; [reflexivity|]); first [left; eassumption | right; split; [eassumption|reflexivity]].
  - intros (kvs & v & -> & [Hv|[Hv ->]]); unfold test_model_inference;
      crush_with ltac:(try rewrite Hv); rewrite <- ?app_assoc; reflexivity.
  - intros kvs v -> Hv; eexists; split; [reflexivity|].
    unfold test_model_inference; crush_with ltac:(try rewrite Hv); rewrite <- ?app_assoc; reflexivity.
Qed.

(** X4: the inference test never raises: on every state it returns a
    boolean.  Each failure is caught and gives False with one line: the
    status of a non-200 answer, "timed out" for either kind of timeout, and
    the error itself for anything else (a refused or dropped connection, a
    body that is not JSON, JSON that is not an object, a 'response' that is
    not a string). *)
Theorem test_model_inference_failures (rest : list http_outcome) (snt : list request)
    (ot : list msg) :
  let after ls := mkState rest (snt ++ [generate_request]) (ot ++ MTestingInference MODEL_NAME :: ls) in
  (forall i snt' ot', exists b, fst (test_model_inference (mkState i snt' ot')) = inr b) /\
  (forall j, (forall kvs, j <> JObj kvs) ->
     test_model_inference (mkState (Resp 200 (BJson j) :: rest) snt ot) =
     (inr false, after [MInferenceError XAttribute])) /\
  (forall c b, c <> 200%Z -> test_model_inference (mkState (Resp c b :: rest) snt ot) =
     (inr false, after [MInferenceStatus c])) /\
  (forall e, e = NConnectTimeout \/ e = NReadTimeout ->
     test_model_inference (mkState (Fail e :: rest) snt ot) = (inr false, after [MInferenceTimeout])) /\
  (forall e, e = NConnect \/ e = NReadError \/ e = NOther ->
     test_model_inference (mkState (Fail e :: rest) snt ot) =
     (inr false, after [MInferenceError (XNet e)])) /\
  test_model_inference (mkState (Resp 200 BText :: rest) snt ot) =
    (inr false, after [MInferenceError XJSONDecode]) /\
  (forall kvs v, dict_get kvs "response" = Some v -> (forall s, v <> JStr s) ->
     test_model_inference (mkState (Resp 200 (BJson (JObj kvs)) :: rest) snt ot) =
     (inr false, after [MInferenceError XAttribute])).
Proof.
  intros after; subst after; split; [|split].
  - intros i snt' ot'.
    destruct (HealthCheckProofs.test_model_inference_step i snt' ot') as (ls & s' & E & _).
    rewrite E; exact (HealthCheckProofs.test_model_inference_total (hd (Fail NConnect) i)).
  - intros j Hj; unfold test_model_inference;
      destruct j as [| | | | | |kvs]; [..|exfalso; exact (Hj kvs eq_refl)];
      crush; rewrite <- ?app_assoc; reflexivity.
  - unfold test_model_inference; split; [|split; [|split; [|split]]].
    + intros c b Hc; apply Z.eqb_neq in Hc; crush; rewrite <- ?app_assoc; reflexivity.
    + intros e [-> | ->]; crush; rewrite <- ?app_assoc; reflexivity.
    + intros e [->|[-> | ->]]; crush; rewrite <- ?app_assoc; reflexivity.
    + crush; rewrite <- ?app_assoc; reflexivity.
    + intros kvs v Hv Hs; crush_with ltac:(try rewrite Hv);
        try (exfalso; eapply Hs; reflexivity); rewrite <- ?app_assoc; reflexivity.
Qed.

(** X5: the model metadata on an HTTP 200 answer.  Missing 'details' give
    "N/A" on all four detail lines; 'details' that are not an object stop
    after the header with a caught AttributeError warning; a body that is
    not JSON gives only the warning. *)
Theorem print_model_info_details (rest : list http_outcome) (snt : list request) (ot : list msg) :
  (forall kvs, dict_get kvs "details" = None ->
     print_model_info (mkState (Resp 200 (BJson (JObj kvs)) :: rest) snt ot) =
     (inr tt, mkState rest (snt ++ [show_request])
        (ot ++ [MInfoHeader MODEL_NAME; MInfoDetail "Parameters" (JStr "N/A");
                MInfoDetail "Quantization" (JStr "N/A"); MInfoDetail "Format" (JStr "N/A");
                MInfoDetail "Family" (JStr "N/A")]))) /\
  (forall kvs d, dict_get kvs "details" = Some d -> (forall dk, d <> JObj dk) ->
     print_model_info (mkState (Resp 200 (BJson (JObj kvs)) :: rest) snt ot) =
     (inr tt, mkState rest (snt ++ [show_request])
        (ot ++ [MInfoHeader MODEL_NAME; MInfoError XAttribute]))) /\
  print_model_info (mkState (Resp 200 BText :: rest) snt ot) =
    (inr tt, mkState rest (snt ++ [show_request]) (ot ++ [MInfoError XJSONDecode])).
Proof.
  unfold print_model_info, print_detail; split; [|split].
  - intros kvs Hd; crush_with ltac:(try rewrite Hd); rewrite <- !app_assoc; reflexivity.
  - intros kvs d Hd Hn; crush_with ltac:(try rewrite Hd);
      try (exfalso; eapply Hn; reflexivity);
      rewrite <- ?app_assoc; reflexivity.
  - crush; reflexivity.
Qed.


(** Run one check inside [main] through its step lemma and its request. *)
Ltac step_send m L S :=
  unfold bind at 1;
  match goal with
  | |- context [m (mkState ?i ?snt ?ot)] =>
      let ls := fresh "ls" in let s := fresh "s" in let E := fresh "E" in
      let I := fresh "I" in let O := fresh "O" in let N := fresh "N" in
      let Sn := fresh "Sn" in
      pose proof (S i snt ot) as Sn;
      destruct (L i snt ot) as (ls & s & E & I & O & N); rewrite E in Sn |- *;
      destruct s as [? ? ?]; cbn [hd tl] in *; simpl in I, O, Sn; subst
  end.

(** X6: when the server is up but the availability check does not return
    True (False, or None on a non-200 listing), main stops after the two
    tag listings: the metadata and inference requests are never sent and
    the last line is the model failure. *)
Theorem availability_failure_stops (r1 r2 : http_outcome) (rest : list http_outcome) :
  result_of check_ollama_status r1 = inr true ->
  result_of check_model_available r2 <> inr (Some true) ->
  fst (run (r1 :: r2 :: rest)) = inr tt /\
  sent (snd (run (r1 :: r2 :: rest))) = [tags_request; tags_request] /\
  inputs (snd (run (r1 :: r2 :: rest))) = rest /\
  last (out (snd (run (r1 :: r2 :: rest)))) MRule = MFailedModel.
Proof.
  intros H1 H2.
  enough (exists ls, run (r1 :: r2 :: rest) =
            (inr tt, mkState rest [tags_request; tags_request] (ls ++ [MFailedModel])))
    as (ls & ->) by (cbn; rewrite last_last; repeat split).
  unfold run, main, init.
  cbn -[check_ollama_status check_model_available print_model_info test_model_inference].
  step_send check_ollama_status HealthCheckProofs.check_ollama_status_step check_ollama_status_sends.
  rewrite H1; cbn -[check_model_available print_model_info test_model_inference].
  step_send check_model_available HealthCheckProofs.check_model_available_step
    check_model_available_sends.
  destruct (HealthCheckProofs.check_model_available_total r2) as [v E2]; rewrite E2 in *.
  destruct v as [[|]|]; [exfalso; exact (H2 eq_refl)| |]; eexists; reflexivity.
Qed.

Lemma availability_failure_stops_witness :
  result_of check_ollama_status (Resp 200 BText) = inr true /\
  result_of check_model_available (Resp 503 BText) <> inr (Some true) /\
  sent (snd (run [Resp 200 BText; Resp 503 BText])) = [tags_request; tags_request].
Proof.
  assert (H1 : result_of check_ollama_status (Resp 200 BText) = inr true) by reflexivity.
  assert (H2 : result_of check_model_available (Resp 503 BText) <> inr (Some true))
    by (vm_compute; discriminate).
  split; [exact H1|split; [exact H2|]].
  exact (proj1 (proj2 (availability_failure_stops _ _ [] H1 H2))).
Defined.

(** X7: once the server is up and the model available, main sends the
    metadata request and the inference request in this order, whatever they
    get, and ends with the verdict between two rules: "All checks passed"
    when inference succeeds, "Some checks failed" otherwise. *)
Theorem full_run_order (r1 r2 r3 r4 : http_outcome) (rest : list http_outcome) :
  result_of check_ollama_status r1 = inr true ->
  result_of check_model_available r2 = inr (Some true) ->
  fst (run (r1 :: r2 :: r3 :: r4 :: rest)) = inr tt /\
  sent (snd (run (r1 :: r2 :: r3 :: r4 :: rest))) =
    [tags_request; tags_request; show_request; generate_request] /\
  inputs (snd (run (r1 :: r2 :: r3 :: r4 :: rest))) = rest /\
  exists ls, out (snd (run (r1 :: r2 :: r3 :: r4 :: rest))) =
    ls ++ [MRule; match result_of test_model_inference r4 with
                  | inr true => MAllPassed | _ => MSomeFailed end; MRule].
Proof.
  intros H1 H2.
  enough (exists ls, run (r1 :: r2 :: r3 :: r4 :: rest) =
            (inr tt, mkState rest [tags_request; tags_request; show_request; generate_request]
               (ls ++ [MRule; match result_of test_model_inference r4 with
                              | inr true => MAllPassed | _ => MSomeFailed end; MRule])))
    as (ls & ->) by (split; [reflexivity|]; split; [reflexivity|]; split; [reflexivity|];
                     exists ls; reflexivity).
  unfold run, main, init.
  cbn -[check_ollama_status check_model_available print_model_info test_model_inference].
  step_send check_ollama_status HealthCheckProofs.check_ollama_status_step check_ollama_status_sends.
  rewrite H1; cbn -[check_model_available print_model_info test_model_inference].
  step_send check_model_available HealthCheckProofs.check_model_available_step
    check_model_available_sends.
  rewrite H2; cbn -[print_model_info test_model_inference].
  step_send print_model_info HealthCheckProofs.print_model_info_step print_model_info_sends.
  rewrite HealthCheckProofs.print_model_info_total; cbn -[test_model_inference].
  step_send test_model_inference HealthCheckProofs.test_model_inference_step
    test_model_inference_sends.
  destruct (HealthCheckProofs.test_model_inference_total r4) as [v E4]; rewrite E4.
  match goal with
  | |- context [mkState rest [tags_request; tags_request; show_request; generate_request] ?O] =>
      exists O
  end.
  destruct v; unfold bind, print, ret; simpl; rewrite <- !app_assoc; reflexivity.
Qed.

Lemma full_run_order_witness :
  sent (snd (run [Resp 200 BText;
                  Resp 200 (BJson (JObj [("models", JArr [JObj [("name", JStr MODEL_NAME)]])]));
                  Fail NConnect; Fail NReadTimeout])) =
  [tags_request; tags_request; show_request; generate_request].
Proof.
  exact (proj1 (proj2 (full_run_order _ _ (Fail NConnect) (Fail NReadTimeout) []
           (eq_refl : result_of check_ollama_status (Resp 200 BText) = inr true)
           (eq_refl : result_of check_model_available
              (Resp 200 (BJson (JObj [("models", JArr [JObj [("name", JStr MODEL_NAME)]])])))
              = inr (Some true))))).
Defined.

End HealthCheckExtra.

Module EmbedderExtra.
Import Embedder.

Lemma find_embedder_skip (pre rest : list (string * json)) (s : state) :
  Forall skipped_entry pre -> find_embedder (pre ++ rest) s = find_embedder rest s.
Proof.
  induction 1 as [|[a c] pre (ckvs & Ec & Hk) _ IH]; [reflexivity|].
  simpl in Ec |- *; subst c; unfold bind, lift, py_get; rewrite Hk; exact IH.
Qed.

Lemma load_first_embedder_aux (pre post : list (string * json)) (alias : string) (cfg : json)
    (s : state) :
  Forall skipped_entry pre -> py_get cfg "kind" JNull = inr (JStr "embedder") ->
  _load_embedder_cfg (CfgText (Some (JObj (pre ++ (alias, cfg) :: post)))) s = (inr (alias, cfg), s).
Proof.
  intros Hp Hk; unfold _load_embedder_cfg, try_, read_models, bind, ret, lift, py_items; cbv beta iota.
  rewrite find_embedder_skip by exact Hp; simpl; unfold bind, lift; rewrite Hk; reflexivity.
Qed.

Lemma model_name_of_obj (alias : string) (kvs : list (string * json)) :
  model_name_of alias (JObj kvs) =
  inr (match dict_get kvs "model" with
       | Some v => if py_truthy v then v else JStr alias
       | None => JStr alias
       end).
Proof. unfold model_name_of, py_get; destruct (dict_get kvs "model"); reflexivity. Qed.

(** Reduce a test on an object configuration: its model name, its base URL
    and its headers are fixed values. *)
Ltac cfg_values Hu :=
  unfold base_url_of; rewrite Hu, model_name_of_obj;
  let m := fresh "m" in let w := fresh "w" in
  set (m := match dict_get _ "model" with Some v => _ | None => _ end); clearbody m;
  set (w := rstrip_slash _); clearbody w.

Lemma test_connection_step (alias : string) (kvs : list (string * json)) (u : string)
    (r : http_outcome) (rest : list http_outcome) (snt : list request) (ot : list msg) :
  dict_get kvs "base_url" = Some (JStr u) ->
  exists ls, test_connection alias (JObj kvs) (mkState (r :: rest) snt ot) =
    (inr (match r with Resp _ _ => true | Fail _ => false end),
     mkState rest (snt ++ [mkRequest GET (rstrip_slash u) [] None 10]) (ot ++ ls)).
Proof.
  intros Hu; unfold test_connection, base_url_of; rewrite Hu.
  set (w := rstrip_slash u); clearbody w.
  destruct r as [c b|[]]; crush; eexists; rewrite <- ?app_assoc; reflexivity.
Qed.

Lemma not_2xx (c : Z) : ~ (200 <= c < 300)%Z -> ((200 <=? c) && (c <? 300))%Z = false.
Proof.
  intros H; destruct (200 <=? c)%Z eqn:E1, (c <? 300)%Z eqn:E2; try reflexivity.
  apply Z.leb_le in E1; apply Z.ltb_lt in E2; lia.
Qed.

Lemma is_2xx (c : Z) : (200 <= c < 300)%Z -> ((200 <=? c) && (c <? 300))%Z = true.
Proof. intros H; apply andb_true_intro; split; [apply Z.leb_le | apply Z.ltb_lt]; lia. Qed.

Lemma test_embedding_caught_step (alias : string) (kvs : list (string * json)) (u : string)
    (m : json) (hs : list (string * string)) (sentence : string) (r : http_outcome)
    (rest : list http_outcome) (snt : list request) (ot : list msg) :
  dict_get kvs "base_url" = Some (JStr u) -> model_name_of alias (JObj kvs) = inr m ->
  _headers (JObj kvs) = inr hs -> caught_failure r ->
    test_embedding alias (JObj kvs) sentence (mkState (r :: rest) snt ot) =
    (inr false,
     mkState rest
       (snt ++ [mkRequest POST (rstrip_slash u ++ "/v1/embeddings") hs
                  (Some (JObj [("model", m); ("input", JArr [JStr sentence])])) 30])
       (ot ++ [MT2Header (rstrip_slash u ++ "/v1/embeddings"); MT2Model m; MT2Input sentence;
               match r with Resp c _ => MHTTPError c | Fail e => MRequestFailed (XNet e) end;
               MFail])).
Proof.
  intros Hu Hm Eh Hr; unfold test_embedding, parse_payload, base_url_of; rewrite Hu, Hm, Eh.
  set (w := rstrip_slash u); clearbody w.
  destruct Hr as [(c & b & -> & Hc)|[->|[-> | ->]]];
    [pose proof (not_2xx c Hc) as H2|..];
    crush_with ltac:(try rewrite H2); rewrite <- ?app_assoc; reflexivity.
Qed.

Lemma test_context_window_caught_step (alias : string) (kvs : list (string * json)) (u : string)
    (m : json) (r : http_outcome) (rest : list http_outcome) (snt : list request) (ot : list msg) :
  dict_get kvs "base_url" = Some (JStr u) -> model_name_of alias (JObj kvs) = inr m ->
  caught_failure r ->
    test_context_window alias (JObj kvs) (mkState (r :: rest) snt ot) =
    (inr false,
     mkState rest
       (snt ++ [mkRequest POST (rstrip_slash u ++ "/api/show") [] (Some (JObj [("name", m)])) 15])
       (ot ++ [MT3Header (rstrip_slash u ++ "/api/show"); MT3Model m] ++
        match r with
        | Resp c _ => [MHTTPError c; MNonOllama; MFail]
        | Fail e => [MRequestFailed (XNet e); MFail]
        end)).
Proof.
  intros Hu Hm Hr; unfold test_context_window, post_checked, parse_payload, base_url_of;
  rewrite Hu, Hm.
  set (w := rstrip_slash u); clearbody w.
  destruct Hr as [(c & b & -> & Hc)|[->|[-> | ->]]];
    [pose proof (not_2xx c Hc) as H2|..];
    crush_with ltac:(try rewrite H2); rewrite <- ?app_assoc; reflexivity.
Qed.


(** X8: the loader picks the first entry of kind "embedder", in the file's
    order, provided the entries before it are objects; later entries are
    not looked at, and nothing is printed or sent. *)
Theorem load_first_embedder (pre post : list (string * json)) (alias : string) (cfg : json)
    (s : state) :
  Forall skipped_entry pre -> py_get cfg "kind" JNull = inr (JStr "embedder") ->
  _load_embedder_cfg (CfgText (Some (JObj (pre ++ (alias, cfg) :: post)))) s = (inr (alias, cfg), s).
Proof. exact (load_first_embedder_aux pre post alias cfg s). Qed.

Lemma load_first_embedder_witness :
  _load_embedder_cfg
    (CfgText (Some (JObj [("chat", JObj [("kind", JStr "llm")]);
                          ("nomic", JObj [("kind", JStr "embedder")]);
                          ("other", JObj [("kind", JStr "embedder")])])))
    (init []) = (inr ("nomic", JObj [("kind", JStr "embedder")]), init []).
Proof.
  apply (load_first_embedder [("chat", JObj [("kind", JStr "llm")])]
           [("other", JObj [("kind", JStr "embedder")])]).
  - repeat constructor; eexists; split; reflexivity.
  - reflexivity.
Defined.

(** X9: an entry that is not an object, met before the embedder, makes
    [cfg.get("kind")] raise AttributeError: the run ends with that uncaught
    exception (exit status 1) before printing or sending anything, even when
    an embedder entry follows. *)
Theorem load_non_object_entry (pre post : list (string * json)) (a : string) (c : json)
    (rs : list http_outcome) :
  Forall skipped_entry pre -> (forall ckvs, c <> JObj ckvs) ->
  run (CfgText (Some (JObj (pre ++ (a, c) :: post)))) rs = (inl XAttribute, init rs) /\
  exit_code (CfgText (Some (JObj (pre ++ (a, c) :: post)))) rs = 1%Z.
Proof.
  intros Hp Hc.
  assert (E : _load_embedder_cfg (CfgText (Some (JObj (pre ++ (a, c) :: post)))) (init rs) =
              (inl XAttribute, init rs)).
  { unfold _load_embedder_cfg, try_, read_models, bind, ret, lift, py_items; cbv beta iota.
    rewrite find_embedder_skip by exact Hp; simpl; unfold bind, lift.
    destruct c as [| | | | | |ckvs]; try reflexivity; exfalso; exact (Hc ckvs eq_refl). }
  assert (R : run (CfgText (Some (JObj (pre ++ (a, c) :: post)))) rs = (inl XAttribute, init rs))
    by (unfold run, main, bind at 1; rewrite E; reflexivity).
  unfold exit_code; rewrite R; split; reflexivity.
Qed.

Lemma load_non_object_entry_witness :
  exit_code (CfgText (Some (JObj [("notes", JStr "see README");
                                  ("nomic", JObj [("kind", JStr "embedder")])]))) [] = 1%Z.
Proof.
  assert (Hc : forall ckvs, JStr "see README" <> JObj ckvs) by discriminate.
  exact (proj2 (load_non_object_entry [] [("nomic", JObj [("kind", JStr "embedder")])] "notes"
                  (JStr "see README") [] (Forall_nil _) Hc)).
Defined.

(** X10: an api_key that is truthy but not a string (a number, a list, an
    object) makes [_headers] raise AttributeError on [.lower()]; the
    embedding test does not catch it, so it raises before sending its
    request, after printing its three header lines. *)
Theorem non_string_api_key (alias : string) (kvs : list (string * json)) (u : string)
    (v : json) (sentence : string) (i : list http_outcome) (snt : list request) (ot : list msg) :
  dict_get kvs "base_url" = Some (JStr u) -> dict_get kvs "api_key" = Some v ->
  py_truthy v = true -> (forall s, v <> JStr s) ->
  _headers (JObj kvs) = inl XAttribute /\
  fst (test_embedding alias (JObj kvs) sentence (mkState i snt ot)) = inl XAttribute /\
  sent (snd (test_embedding alias (JObj kvs) sentence (mkState i snt ot))) = snt /\
  exists m, out (snd (test_embedding alias (JObj kvs) sentence (mkState i snt ot))) =
    ot ++ [MT2Header (rstrip_slash u ++ "/v1/embeddings"); MT2Model m; MT2Input sentence].
Proof.
  intros Hu Hk Ht Hs.
  assert (Eh : _headers (JObj kvs) = inl XAttribute).
  { unfold _headers, py_get; rewrite Hk, Ht.
    destruct v; try reflexivity; exfalso; eapply Hs; reflexivity. }
  split; [exact Eh|].
  unfold test_embedding, parse_payload; cfg_values Hu; rewrite Eh.
  crush; repeat split; exists m; rewrite <- ?app_assoc; reflexivity.
Qed.

Lemma non_string_api_key_witness :
  fst (test_embedding "nomic" (JObj [("base_url", JStr "http://localhost:11434");
                                     ("api_key", JInt 12345)])
         TEST_SENTENCE (mkState [Resp 200 BText] [] [])) = inl XAttribute.
Proof.
  assert (Hs : forall s, JInt 12345 <> JStr s) by discriminate.
  exact (proj1 (proj2 (non_string_api_key "nomic"
           [("base_url", JStr "http://localhost:11434"); ("api_key", JInt 12345)]
           "http://localhost:11434" (JInt 12345) TEST_SENTENCE [Resp 200 BText] [] []
           eq_refl eq_refl eq_refl Hs))).
Defined.

(** X11: the embedding and context-window requests name the same model:
    the configured 'model' when it is truthy, the entry's alias when it is
    missing, null or empty.  The context-window request carries no headers
    at all (in particular no API key) and a 15 s timeout; the embedding
    request carries [_headers] and a 30 s timeout. *)
Theorem request_model_name (alias : string) (kvs : list (string * json)) (u : string)
    (hs : list (string * string)) (sentence : string) (i : list http_outcome)
    (snt : list request) (ot : list msg) :
  dict_get kvs "base_url" = Some (JStr u) -> _headers (JObj kvs) = inr hs ->
  exists m,
    sent (snd (test_embedding alias (JObj kvs) sentence (mkState i snt ot))) =
      snt ++ [mkRequest POST (rstrip_slash u ++ "/v1/embeddings") hs
                (Some (JObj [("model", m); ("input", JArr [JStr sentence])])) 30] /\
    sent (snd (test_context_window alias (JObj kvs) (mkState i snt ot))) =
      snt ++ [mkRequest POST (rstrip_slash u ++ "/api/show") [] (Some (JObj [("name", m)])) 15] /\
    (forall v, dict_get kvs "model" = Some v -> py_truthy v = true -> m = v) /\
    (dict_get kvs "model" = None \/ (exists v, dict_get kvs "model" = Some v /\ py_truthy v = false) ->
     m = JStr alias).
Proof.
  intros Hu Eh.
  exists (match dict_get kvs "model" with
          | Some v => if py_truthy v then v else JStr alias
          | None => JStr alias
          end).
  split; [|split; [|split]].
  - unfold test_embedding, parse_payload; cfg_values Hu; rewrite Eh.
    destruct i as [|[c b|e] rest]; crush; reflexivity.
  - unfold test_context_window, post_checked, parse_payload, py_index; cfg_values Hu.
    destruct i as [|[c b|e] rest]; crush; reflexivity.
  - intros v -> ->; reflexivity.
  - intros [->|(v & -> & ->)]; reflexivity.
Qed.

Lemma request_model_name_witness :
  exists m,
    sent (snd (test_embedding "nomic" (JObj [("base_url", JStr "http://localhost:11434/");
                                            ("model", JStr "")])
                 TEST_SENTENCE (mkState [] [] []))) =
      [mkRequest POST "http://localhost:11434/v1/embeddings" [("Content-Type", "application/json")]
         (Some (JObj [("model", m); ("input", JArr [JStr TEST_SENTENCE])])) 30] /\
    m = JStr "nomic".
Proof.
  destruct (request_model_name "nomic" [("base_url", JStr "http://localhost:11434/");
                                        ("model", JStr "")] "http://localhost:11434/"
              [("Content-Type", "application/json")] TEST_SENTENCE [] [] [] eq_refl eq_refl)
    as (m & E & _ & _ & Ha).
  exists m; split; [exact E|].
  apply Ha; right; exists (JStr ""); split; reflexivity.
Defined.

Ltac body_inj :=
  try match goal with H : BJson _ = BJson _ |- _ => injection H as ?H; subst end.

(** X12: every failure the embedding test catches gives False after one
    request, with one diagnostic line and FAIL: the status of a non-2xx
    answer, the error of a refused connection or a timeout, the parse
    error of a 2xx body that is not JSON. *)
Theorem test_embedding_caught (alias : string) (kvs : list (string * json)) (u : string)
    (hs : list (string * string)) (sentence : string) (r : http_outcome)
    (rest : list http_outcome) (snt : list request) (ot : list msg) :
  dict_get kvs "base_url" = Some (JStr u) -> _headers (JObj kvs) = inr hs ->
  let url := (rstrip_slash u ++ "/v1/embeddings")%string in
  (caught_failure r -> exists m rq,
     test_embedding alias (JObj kvs) sentence (mkState (r :: rest) snt ot) =
     (inr false, mkState rest (snt ++ [rq])
        (ot ++ [MT2Header url; MT2Model m; MT2Input sentence;
                match r with Resp c _ => MHTTPError c | Fail e => MRequestFailed (XNet e) end;
                MFail]))) /\
  (forall c, (200 <= c < 300)%Z -> r = Resp c BText -> exists m rq,
     test_embedding alias (JObj kvs) sentence (mkState (r :: rest) snt ot) =
     (inr false, mkState rest (snt ++ [rq])
        (ot ++ [MT2Header url; MT2Model m; MT2Input sentence; MJSONParseFail; MFail]))).
Proof.
  intros Hu Eh url; subst url; split.
  - intros Hr; eexists _, _;
      exact (test_embedding_caught_step alias kvs u _ hs sentence r rest snt ot Hu
               (model_name_of_obj alias kvs) Eh Hr).
  - intros c Hc ->; pose proof (is_2xx c Hc) as H2.
    unfold test_embedding, parse_payload; cfg_values Hu; rewrite Eh.
    exists m; eexists; crush_with ltac:(try rewrite H2); rewrite <- ?app_assoc; reflexivity.
Qed.

Lemma test_embedding_caught_witness :
  exists m rq,
    test_embedding "nomic" (JObj [("base_url", JStr "http://localhost:11434")]) TEST_SENTENCE
      (mkState [Resp 401 BText] [] []) =
    (inr false, mkState [] [rq]
       [MT2Header "http://localhost:11434/v1/embeddings"; MT2Model m; MT2Input TEST_SENTENCE;
        MHTTPError 401; MFail]).
Proof.
  assert (Hr : caught_failure (Resp 401 BText))
    by (left; exists 401%Z, BText; split; [reflexivity|lia]).
  exact (proj1 (test_embedding_caught "nomic" [("base_url", JStr "http://localhost:11434")]
                  "http://localhost:11434" [("Content-Type", "application/json")] TEST_SENTENCE
                  (Resp 401 BText) [] [] [] eq_refl eq_refl) Hr).
Defined.

(** X13: the failures of the context-window test that end in False: a
    non-2xx answer adds the note that the endpoint may be Ollama-only; a
    refused connection or a timeout prints the error; a payload without
    'modelinfo' (or with an empty one) prints the payload; a 'modelinfo'
    without a '.context_length' key lists its keys. *)
Theorem test_context_window_failures (alias : string) (kvs : list (string * json)) (u : string)
    (r : http_outcome) (rest : list http_outcome) (snt : list request) (ot : list msg) :
  dict_get kvs "base_url" = Some (JStr u) ->
  let url := (rstrip_slash u ++ "/api/show")%string in
  (caught_failure r -> exists m rq,
     test_context_window alias (JObj kvs) (mkState (r :: rest) snt ot) =
     (inr false, mkState rest (snt ++ [rq])
        (ot ++ [MT3Header url; MT3Model m] ++
         match r with
         | Resp c _ => [MHTTPError c; MNonOllama; MFail]
         | Fail e => [MRequestFailed (XNet e); MFail]
         end))) /\
  (forall c pkvs, (200 <= c < 300)%Z -> r = Resp c (BJson (JObj pkvs)) ->
     dict_get pkvs "modelinfo" = None \/ dict_get pkvs "modelinfo" = Some (JObj []) ->
     exists m rq,
     test_context_window alias (JObj kvs) (mkState (r :: rest) snt ot) =
     (inr false, mkState rest (snt ++ [rq])
        (ot ++ [MT3Header url; MT3Model m; MNoModelinfo (JObj pkvs); MFail]))) /\
  (forall c pkvs mkvs, (200 <= c < 300)%Z -> r = Resp c (BJson (JObj pkvs)) ->
     dict_get pkvs "modelinfo" = Some (JObj mkvs) -> mkvs <> [] ->
     find ctx_length_entry mkvs = None ->
     exists m rq,
     test_context_window alias (JObj kvs) (mkState (r :: rest) snt ot) =
     (inr false, mkState rest (snt ++ [rq])
        (ot ++ [MT3Header url; MT3Model m; MNoCtxKey; MAvailableKeys (map fst mkvs); MFail]))).
Proof.
  intros Hu url; subst url; split; [|split].
  - intros Hr; eexists _, _;
      exact (test_context_window_caught_step alias kvs u _ r rest snt ot Hu
               (model_name_of_obj alias kvs) Hr).
  - intros c pkvs Hc -> Hmi; pose proof (is_2xx c Hc) as H2.
    unfold test_context_window, post_checked, parse_payload; cfg_values Hu.
    exists m; eexists; destruct Hmi as [Hmi|Hmi];
      crush_with ltac:(body_inj; try rewrite H2; try rewrite Hmi); try congruence;
      rewrite <- ?app_assoc; reflexivity.
  - intros c pkvs mkvs Hc -> Hmi Hne Hf; pose proof (is_2xx c Hc) as H2.
    destruct mkvs as [|kv0 mkvs']; [contradiction|].
    unfold test_context_window, post_checked, parse_payload; cfg_values Hu.
    exists m; eexists.
    crush_with ltac:(body_inj; try rewrite H2; try rewrite Hmi;
                     try rewrite EmbedderProofs.find_ctx_key_map; try rewrite Hf); try congruence; rewrite <- ?app_assoc; reflexivity.
Qed.

Lemma test_context_window_failures_witness :
  exists m rq,
    test_context_window "openai" (JObj [("base_url", JStr "https://api.example.com/")])
      (mkState [Resp 404 BText] [] []) =
    (inr false, mkState [] [rq]
       [MT3Header "https://api.example.com/api/show"; MT3Model m; MHTTPError 404; MNonOllama; MFail]).
Proof.
  assert (Hr : caught_failure (Resp 404 BText))
    by (left; exists 404%Z, BText; split; [reflexivity|lia]).
  exact (proj1 (test_context_window_failures "openai"
                  [("base_url", JStr "https://api.example.com/")] "https://api.example.com/"
                  (Resp 404 BText) [] [] [] eq_refl) Hr).
Defined.

(** X14: what the embedding test does not catch.  A transport error other
    than a refused connection or a timeout (a dropped connection, a
    protocol error), and a 2xx JSON payload that is not an object (on
    [payload.get("data")]), escape the test as exceptions. *)
Theorem test_embedding_uncaught (alias : string) (kvs : list (string * json)) (u : string)
    (hs : list (string * string)) (sentence : string) (rest : list http_outcome)
    (snt : list request) (ot : list msg) :
  dict_get kvs "base_url" = Some (JStr u) -> _headers (JObj kvs) = inr hs ->
  (forall e, e = NReadError \/ e = NOther ->
     fst (test_embedding alias (JObj kvs) sentence (mkState (Fail e :: rest) snt ot)) =
     inl (XNet e)) /\
  (forall c j, (200 <= c < 300)%Z -> (forall pkvs, j <> JObj pkvs) ->
     fst (test_embedding alias (JObj kvs) sentence (mkState (Resp c (BJson j) :: rest) snt ot)) =
     inl XAttribute).
Proof.
  intros Hu Eh; split.
  - intros e [-> | ->]; unfold test_embedding, parse_payload; cfg_values Hu; rewrite Eh;
      crush; reflexivity.
  - intros c j Hc Hj; pose proof (is_2xx c Hc) as H2.
    unfold test_embedding, parse_payload; cfg_values Hu; rewrite Eh.
    destruct j as [| | | | | |pkvs]; [..|exfalso; exact (Hj pkvs eq_refl)];
      crush_with ltac:(try rewrite H2); reflexivity.
Qed.

Lemma test_embedding_uncaught_witness :
  fst (test_embedding "nomic" (JObj [("base_url", JStr "http://localhost:11434")]) TEST_SENTENCE
         (mkState [Resp 200 (BJson (JArr []))] [] [])) = inl XAttribute.
Proof.
  assert (Hc : (200 <= 200 < 300)%Z) by lia.
  assert (Hj : forall pkvs, JArr [] <> JObj pkvs) by discriminate.
  exact (proj2 (test_embedding_uncaught "nomic" [("base_url", JStr "http://localhost:11434")]
                  "http://localhost:11434" [("Content-Type", "application/json")] TEST_SENTENCE
                  [] [] [] eq_refl eq_refl) 200%Z (JArr []) Hc Hj).
Defined.

(** X15: the three tests of main run one after the other whatever the
    earlier ones found: when the embedding and context-window requests
    fail in a way their tests catch, all three requests are still sent, in
    order, the summary counts only the connection test (passed exactly when
    its request got any HTTP answer), and the process exits with 1. *)
Theorem tests_run_independently (pre post : list (string * json)) (alias : string)
    (kvs : list (string * json)) (u : string) (hs : list (string * string))
    (r1 r2 r3 : http_outcome) (rest : list http_outcome) :
  Forall skipped_entry pre -> dict_get kvs "kind" = Some (JStr "embedder") ->
  dict_get kvs "base_url" = Some (JStr u) -> _headers (JObj kvs) = inr hs ->
  caught_failure r2 -> caught_failure r3 ->
  let f := CfgText (Some (JObj (pre ++ (alias, JObj kvs) :: post))) in
  map rq_url (sent (snd (run f (r1 :: r2 :: r3 :: rest)))) =
    [rstrip_slash u; (rstrip_slash u ++ "/v1/embeddings")%string;
     (rstrip_slash u ++ "/api/show")%string] /\
  inputs (snd (run f (r1 :: r2 :: r3 :: rest))) = rest /\
  (exists ls, out (snd (run f (r1 :: r2 :: r3 :: rest))) =
     ls ++ [MSep; MResults (match r1 with Resp _ _ => 1 | Fail _ => 0 end) 3]) /\
  exit_code f (r1 :: r2 :: r3 :: rest) = 1%Z.
Proof.
  intros Hp Hk Hu Eh H2 H3 f; subst f.
  assert (Hk' : py_get (JObj kvs) "kind" JNull = inr (JStr "embedder"))
    by (unfold py_get; rewrite Hk; reflexivity).
  enough (exists ls, run (CfgText (Some (JObj (pre ++ (alias, JObj kvs) :: post))))
                         (r1 :: r2 :: r3 :: rest) =
            (inl (XSystemExit 1),
             mkState rest
               [mkRequest GET (rstrip_slash u) [] None 10;
                mkRequest POST (rstrip_slash u ++ "/v1/embeddings") hs
                  (Some (JObj [("model", fst ls); ("input", JArr [JStr TEST_SENTENCE])])) 30;
                mkRequest POST (rstrip_slash u ++ "/api/show") [] (Some (JObj [("name", fst ls)])) 15]
               (snd ls ++ [MSep; MResults (match r1 with Resp _ _ => 1 | Fail _ => 0 end) 3])))
    as (ls & E) by (unfold exit_code; rewrite E; split; [reflexivity|]; split; [reflexivity|];
                    split; [exists (snd ls); reflexivity | reflexivity]).
  unfold run, main; unfold bind at 1; rewrite (load_first_embedder_aux pre post alias _ _ Hp Hk').
  unfold init; cbn -[test_connection test_embedding test_context_window].
  unfold bind at 1.
  match goal with |- context [test_connection alias (JObj kvs) (mkState _ ?snt ?ot)] =>
    destruct (test_connection_step alias kvs u r1 (r2 :: r3 :: rest) snt ot Hu) as (ls1 & E1)
  end.
  rewrite E1; cbn -[test_embedding test_context_window].
  unfold bind at 1.
  match goal with |- context [test_embedding alias (JObj kvs) _ (mkState _ ?snt ?ot)] =>
    rewrite (test_embedding_caught_step alias kvs u _ hs TEST_SENTENCE r2 (r3 :: rest) snt ot Hu
               (model_name_of_obj alias kvs) Eh H2)
  end.
  cbn -[test_context_window].
  unfold bind at 1.
  match goal with |- context [test_context_window alias (JObj kvs) (mkState _ ?snt ?ot)] =>
    rewrite (test_context_window_caught_step alias kvs u _ r3 rest snt ot Hu
               (model_name_of_obj alias kvs) H3)
  end.
  match goal with |- context [mkState rest _ ?O] =>
    exists (match dict_get kvs "model" with
            | Some v => if py_truthy v then v else JStr alias
            | None => JStr alias
            end, O)
  end.
  destruct r1; unfold bind, print, sys_exit, raise; simpl; rewrite <- ?app_assoc; reflexivity.
Qed.

Lemma tests_run_independently_witness :
  exit_code (CfgText (Some (JObj [("nomic", JObj [("kind", JStr "embedder");
                                                  ("base_url", JStr "http://localhost:11434")])])))
    [Fail NConnect; Fail NConnect; Fail NConnect] = 1%Z.
Proof.
  assert (H2 : caught_failure (Fail NConnect)) by (right; left; reflexivity).
  exact (proj2 (proj2 (proj2 (tests_run_independently [] []
           "nomic" [("kind", JStr "embedder"); ("base_url", JStr "http://localhost:11434")]
           "http://localhost:11434" [("Content-Type", "application/json")]
           (Fail NConnect) (Fail NConnect) (Fail NConnect) []
           (Forall_nil _) eq_refl eq_refl eq_refl H2 H2)))).
Defined.

(** X16: the lines of the connection test.  Any HTTP answer prints its
    status and PASS; a refused connection prints a ConnectError; a connect
    timeout or a read timeout prints a TimeoutException (httpx's
    ConnectTimeout is not a ConnectError); any other error is caught as
    unexpected.  Each failure ends with FAIL. *)
Theorem test_connection_messages (alias : string) (kvs : list (string * json)) (u : string)
    (rest : list http_outcome) (snt : list request) (ot : list msg) :
  dict_get kvs "base_url" = Some (JStr u) ->
  let hdr := MT1Header (rstrip_slash u) in
  (forall c b, out (snd (test_connection alias (JObj kvs) (mkState (Resp c b :: rest) snt ot))) =
     ot ++ [hdr; MT1Status c; MPass]) /\
  out (snd (test_connection alias (JObj kvs) (mkState (Fail NConnect :: rest) snt ot))) =
    ot ++ [hdr; MConnectError (XNet NConnect); MFail] /\
  (forall e, e = NConnectTimeout \/ e = NReadTimeout ->
     out (snd (test_connection alias (JObj kvs) (mkState (Fail e :: rest) snt ot))) =
     ot ++ [hdr; MTimeoutExc (XNet e); MFail]) /\
  (forall e, e = NReadError \/ e = NOther ->
     out (snd (test_connection alias (JObj kvs) (mkState (Fail e :: rest) snt ot))) =
     ot ++ [hdr; MUnexpected (XNet e); MFail]).
Proof.
  intros Hu hdr; subst hdr; unfold test_connection, base_url_of; rewrite Hu.
  set (w := rstrip_slash u); clearbody w.
  split; [|split; [|split]].
  - intros c b; crush; rewrite <- ?app_assoc; reflexivity.
  - crush; rewrite <- ?app_assoc; reflexivity.
  - intros e [-> | ->]; crush; rewrite <- ?app_assoc; reflexivity.
  - intros e [-> | ->]; crush; rewrite <- ?app_assoc; reflexivity.
Qed.

Lemma test_connection_messages_witness :
  out (snd (test_connection "nomic" (JObj [("base_url", JStr "http://localhost:11434/")])
              (mkState [Fail NConnectTimeout] [] []))) =
  [MT1Header "http://localhost:11434"; MTimeoutExc (XNet NConnectTimeout); MFail].
Proof.
  exact (proj1 (proj2 (proj2 (test_connection_messages "nomic"
           [("base_url", JStr "http://localhost:11434/")] "http://localhost:11434/" [] [] []
           eq_refl))) NConnectTimeout (or_introl eq_refl)).
Defined.

End EmbedderExtra.
